(** * abcc_dicom2bids_s3: QC-driven series selection and spreadsheet normalisation

    A shallow embedding of the decision logic of
    - [src/s3_downloader_revised.py]  (modality selectors, manifest rows,
      running totals, missing-file log), module [Downloader];
    - [abcd2bids.py], function [reformat_fastqc_spreadsheet] (row filter,
      SeriesTime padding, filename suffix), module [Normalizer].

    A pandas DataFrame is a list of rows in index order; a column cell is a
    value of type [cell].  Python exceptions are modelled by [None]. *)

From Stdlib Require Import List String Ascii ZArith QArith Lia Bool.
Import ListNotations.

Open Scope Z_scope.
Open Scope string_scope.
Open Scope list_scope.

(** ** Spreadsheet cells *)

(** What pandas hands back for one cell: an integer, a finite float (given by
    its exact value and by the text Python's [str] prints for it), a string,
    or NaN (an empty cell). *)
Inductive cell : Type :=
| CInt (z : Z)
| CFloat (value : Q) (repr : string)
| CStr (s : string)
| CNaN.

(** [x != 0] (and [x != 0.0]) on one cell.  NaN and strings differ from zero. *)
Definition ne_zero (c : cell) : bool :=
  match c with
  | CInt z => negb (z =? 0)%Z
  | CFloat q _ => negb (Qeq_bool q 0)
  | CStr _ => true
  | CNaN => true
  end.

(** ** Exceptions as [option] *)

Definition bind {A B : Type} (m : option A) (k : A -> option B) : option B :=
  match m with
  | Some a => k a
  | None => None
  end.

Notation "x <- m ;; k" := (bind m (fun x => k))
  (at level 61, m at next level, right associativity).
Notation "' p <- m ;; k" := (bind m (fun x => let p := x in k))
  (at level 61, p pattern, m at next level, right associativity).

(** ** Python string helpers *)

Definition nl : string := String "010"%char EmptyString.

(** [s.split(sep)] for a one-character separator: never the empty list. *)
Fixpoint split (sep : ascii) (s : string) : list string :=
  match s with
  | EmptyString => [EmptyString]
  | String c s' =>
      if (c =? sep)%char then EmptyString :: split sep s'
      else match split sep s' with
           | [] => [String c EmptyString]
           | x :: xs => String c x :: xs
           end
  end.

(** [c.isspace()] on the ASCII range. *)
Definition is_space (c : ascii) : bool :=
  let n := nat_of_ascii c in
  ((9 <=? n) && (n <=? 13) || (28 <=? n) && (n <=? 32))%nat.

Fixpoint lstrip (s : string) : string :=
  match s with
  | EmptyString => EmptyString
  | String c s' => if is_space c then lstrip s' else s
  end.

Fixpoint rstrip (s : string) : string :=
  match s with
  | EmptyString => EmptyString
  | String c s' =>
      match rstrip s' with
      | EmptyString => if is_space c then EmptyString else String c EmptyString
      | r => String c r
      end
  end.

(** [s.strip()] *)
Definition strip (s : string) : string := rstrip (lstrip s).

Module Downloader.

(** *** Data model *)

(** The columns of the QC spreadsheet that the downloader reads.  [filename]
    holds the text [str(file_path)] that [main] works with. *)
Record series_row : Type := mk_row {
  pGUID : string;
  EventName : string;
  SeriesType : string;
  usable : cell;
  filename : string
}.

Definition DataFrame : Type := list series_row.

(** [df[df['SeriesType'] == ty]] *)
Definition by_type (ty : string) (df : DataFrame) : DataFrame :=
  filter (fun r => SeriesType r =? ty) df.

(** [df.empty] and [df.shape[0]] *)
Definition empty (df : DataFrame) : bool :=
  match df with [] => true | _ :: _ => false end.

Definition shape0 (df : DataFrame) : Z := Z.of_nat (List.length df).

(** [df.iloc[i]]: raises IndexError out of range. *)
Definition iloc (df : DataFrame) (i : nat) : option series_row := nth_error df i.

(** [for file_path in df['filename']: file_paths += [file_path]] *)
Definition add_filenames (df : DataFrame) (file_paths : list string) : list string :=
  fold_left (fun acc r => acc ++ [filename r]) df file_paths.

(** The value the code writes for "functional series present but no usable
    field map". *)
Definition SENTINEL : Z := 10000.

(** *** add_anat_paths *)

Definition add_anat_paths (passed_QC_group : DataFrame) (file_paths : list string)
  : list string * Z * Z :=
  let T1_df := by_type "ABCD-T1-NORM" passed_QC_group in
  let '(file_paths, has_t1) :=
    if empty T1_df then
      let T1_df := by_type "ABCD-T1" passed_QC_group in
      if empty T1_df then (file_paths, 0)
      else (add_filenames T1_df file_paths, shape0 T1_df)
    else (add_filenames T1_df file_paths, shape0 T1_df) in
  let T2_df := by_type "ABCD-T2-NORM" passed_QC_group in
  let '(file_paths, has_t2) :=
    if empty T2_df then
      let T2_df := by_type "ABCD-T2" passed_QC_group in
      if empty T2_df then (file_paths, 0)
      else (add_filenames T2_df file_paths, shape0 T2_df)
    else (add_filenames T2_df file_paths, shape0 T2_df) in
  (file_paths, has_t1, has_t2).

(** *** Field-map pairing (shared shape of the functional and diffusion loops) *)

(** [upper_range]: the smaller of the two candidate counts. *)
Definition upper_range (AP_df PA_df : DataFrame) : nat :=
  if (List.length AP_df <=? List.length PA_df)%nat then List.length AP_df else List.length PA_df.

(** The body of [for i in range(0, upper_range)].  Python's [and] does not
    evaluate [PA_df.iloc[i]] when the AP row is unusable.  [FM_df.append(row)]
    is the pandas 1.x method: a copy with the row added at the end. *)
Fixpoint pair_loop (AP_df PA_df : DataFrame) (range : list nat) (FM_df : DataFrame)
  : option DataFrame :=
  match range with
  | [] => Some FM_df
  | i :: range' =>
      a <- iloc AP_df i ;;
      if ne_zero (usable a) then
        p <- iloc PA_df i ;;
        if ne_zero (usable p) then
          pair_loop AP_df PA_df range' ((FM_df ++ [a]) ++ [p])
        else pair_loop AP_df PA_df range' FM_df
      else pair_loop AP_df PA_df range' FM_df
  end.

(** [for i in range(0, upper_range): ...] as both selectors run it. *)
Definition pair_by_index (AP_df PA_df : DataFrame) (FM_df : DataFrame) : option DataFrame :=
  pair_loop AP_df PA_df (seq 0 (upper_range AP_df PA_df)) FM_df.

(** *** The pairing rule in the specification's words *)

(** "include the pair only if both AP[i] and PA[i] individually pass
    usability" *)
Definition both_usable (ap : series_row * series_row) : bool :=
  ne_zero (usable (fst ap)) && ne_zero (usable (snd ap)).

(** "pair AP[i] with PA[i] for i in range(0, min(count(AP), count(PA)))":
    the candidates zipped position by position, the usable pairs kept. *)
Definition usable_pairs (AP_df PA_df : DataFrame) : list (series_row * series_row) :=
  filter both_usable (combine AP_df PA_df).

(** The rows of the selected pairs, AP before PA, in pair order. *)
Definition pair_rows (pairs : list (series_row * series_row)) : DataFrame :=
  flat_map (fun ap => [fst ap; snd ap]) pairs.

(** "If a combined FM series type passes QC, select all such rows; else
    ... accumulate all included pairs into the selected SEFM set." *)
Definition sefm_rows (all_group passed_QC_group : DataFrame) : DataFrame :=
  if empty (by_type "ABCD-fMRI-FM" passed_QC_group)
  then pair_rows (usable_pairs (by_type "ABCD-fMRI-FM-AP" all_group)
                               (by_type "ABCD-fMRI-FM-PA" all_group))
  else by_type "ABCD-fMRI-FM" passed_QC_group.

(** *** add_func_paths *)

Definition isin (tys : list string) (r : series_row) : bool :=
  existsb (String.eqb (SeriesType r)) tys.

Definition add_func_paths (all_group passed_QC_group : DataFrame) (file_paths : list string)
  : option (list string * Z * Z * Z * Z * Z) :=
  if existsb (isin ["ABCD-rsfMRI"; "ABCD-MID-fMRI"; "ABCD-nBack-fMRI"; "ABCD-SST-fMRI"])
       passed_QC_group
  then
    let FM_df := by_type "ABCD-fMRI-FM" passed_QC_group in
    FM_df <- (if empty FM_df then
                let FM_AP_df := by_type "ABCD-fMRI-FM-AP" all_group in
                let FM_PA_df := by_type "ABCD-fMRI-FM-PA" all_group in
                if empty FM_AP_df then Some FM_df
                else pair_by_index FM_AP_df FM_PA_df FM_df
              else Some FM_df) ;;
    if empty FM_df then
      Some (file_paths, 0, 10000, 10000, 10000, 10000)
    else
      let file_paths := add_filenames FM_df file_paths in
      let has_sefm := shape0 FM_df in
      let RS_df := by_type "ABCD-rsfMRI" passed_QC_group in
      let '(file_paths, has_rsfmri) :=
        if empty RS_df then (file_paths, 0)
        else (add_filenames RS_df file_paths, shape0 RS_df) in
      let MID_df := by_type "ABCD-MID-fMRI" passed_QC_group in
      let '(file_paths, has_mid) :=
        if empty MID_df then (file_paths, 0)
        else (add_filenames MID_df file_paths, shape0 MID_df) in
      let SST_df := by_type "ABCD-SST-fMRI" passed_QC_group in
      let '(file_paths, has_sst) :=
        if empty SST_df then (file_paths, 0)
        else (add_filenames SST_df file_paths, shape0 SST_df) in
      let nBack_df := by_type "ABCD-nBack-fMRI" passed_QC_group in
      let '(file_paths, has_nback) :=
        if empty nBack_df then (file_paths, 0)
        else (add_filenames nBack_df file_paths, shape0 nBack_df) in
      Some (file_paths, has_sefm, has_rsfmri, has_mid, has_sst, has_nback)
  else Some (file_paths, 0, 0, 0, 0, 0).

(** *** add_dwi_paths *)

Definition add_dwi_paths (all_group passed_QC_group : DataFrame) (file_paths : list string)
  : option (list string * Z) :=
  let DTI_df := by_type "ABCD-DTI" passed_QC_group in
  if (1 <=? shape0 DTI_df)%Z then
    (* lines 385-390, reached unless the early return is taken *)
    let finish (DTI_FM_df : DataFrame) : list string * Z :=
      let file_paths :=
        if negb (empty DTI_FM_df)
        then add_filenames DTI_FM_df (add_filenames DTI_df file_paths)
        else file_paths in
      (file_paths, shape0 DTI_df) in
    let DTI_FM_df := by_type "ABCD-Diffusion-FM" passed_QC_group in
    if empty DTI_FM_df then
      let DTI_FM_AP_df := by_type "ABCD-Diffusion-FM-AP" all_group in
      let DTI_FM_PA_df := by_type "ABCD-Diffusion-FM-PA" all_group in
      let DTI_FM_df : DataFrame := [] in
      if empty DTI_FM_AP_df then Some (file_paths, 0)
      else
        DTI_FM_df <- pair_by_index DTI_FM_AP_df DTI_FM_PA_df DTI_FM_df ;;
        Some (finish DTI_FM_df)
    else Some (finish DTI_FM_df)
  else Some (file_paths, shape0 DTI_df).

(** *** main: one manifest row per (subject, session) *)

Record counts : Type := mk_counts {
  has_t1 : Z; has_t2 : Z; has_sefm : Z; has_rsfmri : Z;
  has_mid : Z; has_sst : Z; has_nback : Z; has_dti : Z
}.

(** Lines 153-160: the counts a session starts with. *)
Definition counts0 : counts := mk_counts 0 0 0 0 0 0 0 0.

(** The logging variables at the top of [main]. *)
Record totals : Type := mk_totals {
  num_sub_visits : Z; num_t1 : Z; num_rsfmri : Z; num_sst : Z;
  num_mid : Z; num_nback : Z; num_t2 : Z; num_dti : Z
}.

Definition totals0 : totals := mk_totals 0 0 0 0 0 0 0 0.

(** Lines 180-193. *)
Definition tally (t : totals) (c : counts) : totals :=
  let num_t1 := if negb (has_t1 c =? 0)%Z then num_t1 t + 1 else num_t1 t in
  let num_t2 := if negb (has_t2 c =? 0)%Z then num_t2 t + 1 else num_t2 t in
  let num_rsfmri :=
    if negb (has_rsfmri c =? 0)%Z && negb (has_rsfmri c =? 10000)%Z
    then num_rsfmri t + 1 else num_rsfmri t in
  let num_mid :=
    if negb (has_mid c =? 0)%Z && negb (has_mid c =? 10000)%Z
    then num_mid t + 1 else num_mid t in
  let num_sst :=
    if negb (has_sst c =? 0)%Z && negb (has_sst c =? 10000)%Z
    then num_sst t + 1 else num_sst t in
  let num_nback :=
    if negb (has_nback c =? 0)%Z && negb (has_nback c =? 10000)%Z
    then num_nback t + 1 else num_nback t in
  let num_dti := if negb (has_dti c =? 0)%Z then num_dti t + 1 else num_dti t in
  mk_totals (num_sub_visits t) num_t1 num_rsfmri num_sst num_mid num_nback num_t2 num_dti.

(** Lines 148-172: the slice of one session, its QC-passing part, and the
    selectors in the order anat, func, dwi.  A modality that is not asked for
    leaves its counts at their initial 0. *)
Definition select_session (modalities : list string) (sub_ses_df : DataFrame)
  : option (list string * counts) :=
  let sub_pass_QC_df := filter (fun r => ne_zero (usable r)) sub_ses_df in
  let file_paths : list string := [] in
  let '(file_paths, has_t1, has_t2) :=
    if existsb (String.eqb "anat") modalities
    then add_anat_paths sub_pass_QC_df file_paths
    else (file_paths, 0, 0) in
  '(file_paths, has_sefm, has_rsfmri, has_mid, has_sst, has_nback) <-
    (if existsb (String.eqb "func") modalities
     then add_func_paths sub_ses_df sub_pass_QC_df file_paths
     else Some (file_paths, 0, 0, 0, 0, 0)) ;;
  '(file_paths, has_dti) <-
    (if existsb (String.eqb "dwi") modalities
     then add_dwi_paths sub_ses_df sub_pass_QC_df file_paths
     else Some (file_paths, 0)) ;;
  Some (file_paths,
        mk_counts has_t1 has_t2 has_sefm has_rsfmri has_mid has_sst has_nback has_dti).

Section Storage.

(** The storage collaborator: [s3_ls path] is [returncode == 0] of
    [s3cmd ls path]; [s3_get bids_id bids_year path] is whether [s3cmd get]
    of that path into the session's directory succeeds. *)
Variable s3_bucket : string.
Variable s3_ls : string -> bool.
Variable s3_get : string -> string -> string -> bool.

(** Lines 207-240 for one element of [file_paths]: the lines appended to the
    missing-files log. *)
Definition download_one (bids_id bids_year file_path : string) : list string :=
  flat_map
    (fun split_value =>
       let full_file_path := (s3_bucket ++ "/" ++ strip split_value)%string in
       if s3_ls full_file_path then
         if s3_get bids_id bids_year full_file_path then []
         else [(bids_id ++ "; " ++ bids_year ++ "; " ++ full_file_path ++ nl)%string]
       else [(bids_id ++ "; " ++ bids_year ++ "; " ++ full_file_path ++ "; " ++ nl)%string])
    (split ";" file_path).

Definition download (bids_id bids_year : string) (file_paths : list string) : list string :=
  flat_map (download_one bids_id bids_year) file_paths.

(** The files [main] writes: the manifest log, the running totals and the
    missing-files log ([None] while the file does not exist). *)
Record run_state : Type := mk_state {
  manifest : list (string * string * counts);
  stats : totals;
  missing_files_log : option (list string)
}.

(** Lines 198-201: the log is created with its header line when absent. *)
Definition ensure_log (log : option (list string)) : list string :=
  match log with
  | None => [("Missing files log:" ++ nl)%string]
  | Some ls => ls
  end.

(** The body of the inner loop of [main] (lines 134-240). *)
Definition session_step (modalities : list string) (subject_df : DataFrame)
    (bids_id bids_year : string) (st : run_state) : option run_state :=
  let year := ("ses-" ++ bids_year)%string in
  let sub_ses_df := filter (fun r => EventName r =? year) subject_df in
  let t := stats st in
  let t := mk_totals (num_sub_visits t + 1) (num_t1 t) (num_rsfmri t) (num_sst t)
             (num_mid t) (num_nback t) (num_t2 t) (num_dti t) in
  '(file_paths, c) <- select_session modalities sub_ses_df ;;
  let manifest := manifest st ++ [(bids_id, year, c)] in
  let t := tally t c in
  let log := ensure_log (missing_files_log st) in
  Some (mk_state manifest t (Some (log ++ download bids_id bids_year file_paths))).

Fixpoint years_loop (modalities : list string) (subject_df : DataFrame)
    (bids_id : string) (year_list : list string) (st : run_state) : option run_state :=
  match year_list with
  | [] => Some st
  | bids_year :: rest =>
      st <- session_step modalities subject_df bids_id bids_year st ;;
      years_loop modalities subject_df bids_id rest st
  end.

Fixpoint subjects_loop (modalities : list string) (series_df : DataFrame)
    (subject_list year_list : list string) (st : run_state) : option run_state :=
  match subject_list with
  | [] => Some st
  | sub :: rest =>
      let bids_id := ("sub-" ++ sub)%string in
      let subject_df := filter (fun r => pGUID r =? bids_id) series_df in
      st <- years_loop modalities subject_df bids_id year_list st ;;
      subjects_loop modalities series_df rest year_list st
  end.

(** [main]: the manifest log is opened for writing, so it starts empty. *)
Definition main (modalities : list string) (series_df : DataFrame)
    (subject_list year_list : list string) (log : option (list string))
  : option run_state :=
  subjects_loop modalities series_df subject_list year_list (mk_state [] totals0 log).

End Storage.

End Downloader.

Module Normalizer.

(** *** Python conversions used by [reformat_fastqc_spreadsheet] *)

Definition is_digit (c : ascii) : bool :=
  let n := nat_of_ascii c in ((48 <=? n) && (n <=? 57))%nat.

Definition digit_value (c : ascii) : Z := Z.of_nat (nat_of_ascii c) - 48.

Definition digit_char (d : Z) : ascii := ascii_of_nat (48 + Z.to_nat d).

(** Decimal digits with single underscores between them, as [int] accepts. *)
Fixpoint parse_digits (s : string) (acc : Z) (after_digit : bool) : option Z :=
  match s with
  | EmptyString => if after_digit then Some acc else None
  | String c s' =>
      if is_digit c then parse_digits s' (10 * acc + digit_value c) true
      else if (c =? "_")%char && after_digit then parse_digits s' acc false
      else None
  end.

(** [int(s)] on a string (ASCII): surrounding blanks, an optional sign,
    digits.  [None] is ValueError. *)
Definition int_of_str (s : string) : option Z :=
  match strip s with
  | String "-" r => option_map Z.opp (parse_digits r 0 false)
  | String "+" r => parse_digits r 0 false
  | r => parse_digits r 0 false
  end.

(** [int(x)] on a float truncates towards zero. *)
Definition trunc (q : Q) : Z := Z.quot (Qnum q) (Z.pos (Qden q)).

(** [int(x)] on a cell. *)
Definition py_int (x : cell) : option Z :=
  match x with
  | CInt z => Some z
  | CFloat q _ => Some (trunc q)
  | CStr s => int_of_str s
  | CNaN => None
  end.

Fixpoint str_digits (fuel : nat) (z : Z) : string :=
  match fuel with
  | O => EmptyString
  | S fuel' =>
      if (z <? 10)%Z then String (digit_char z) EmptyString
      else (str_digits fuel' (z / 10) ++ String (digit_char (z mod 10)) EmptyString)%string
  end.

(** [str(z)] for an integer. *)
Definition str_int (z : Z) : string :=
  if (z <? 0)%Z then String "-" (str_digits (S (Z.to_nat (Z.log2 (- z)))) (- z))
  else str_digits (S (Z.to_nat (Z.log2 z))) z.

Fixpoint zeros (n : nat) : string :=
  match n with
  | O => EmptyString
  | S n' => String "0" (zeros n')
  end.

(** [s.zfill(width)]: zeros go after a leading sign. *)
Definition zfill (width : nat) (s : string) : string :=
  let n := String.length s in
  if (width <=? n)%nat then s
  else
    let pad := zeros (width - n) in
    match s with
    | String c r =>
        if ((c =? "+") || (c =? "-"))%char then String c (pad ++ r)%string
        else (pad ++ s)%string
    | EmptyString => pad
    end.

(** [pd.notna(x)] *)
Definition notna (x : cell) : bool :=
  match x with CNaN => false | _ => true end.

(** [Series.astype(str)] on one cell. *)
Definition astype_str (x : cell) : string :=
  match x with
  | CInt z => str_int z
  | CFloat _ repr => repr
  | CStr s => s
  | CNaN => "nan"
  end.

(** [x != 'Bad'] on one cell. *)
Definition ne_Bad (x : cell) : bool :=
  match x with
  | CStr s => negb (s =? "Bad")
  | _ => true
  end.

(** *** Vocabulary for statements about digit strings *)

Definition all_digits (s : string) : bool :=
  forallb is_digit (list_ascii_of_string s).

Definition has_char (c : ascii) (s : string) : bool :=
  existsb (Ascii.eqb c) (list_ascii_of_string s).

(** The number a string of decimal digits denotes, read left to right. *)
Fixpoint decimal_value (s : string) (acc : Z) : Z :=
  match s with
  | EmptyString => acc
  | String c s' => decimal_value s' (10 * acc + digit_value c)
  end.

(** *** Rows *)

(** The required columns, as they are after the quote and int clean-up of
    lines 441-442. *)
Record qc_row : Type := mk_qc_row {
  pGUID : cell; VisitID : cell; EventName : cell; SeriesType : cell;
  ABCD_Compliant : cell; SeriesDescription : cell; Completed : cell;
  StudyDate : cell; SeriesTime : cell; QC : cell
}.

(** A row of [reformatted_data] after line 474. *)
Record reformatted_row : Type := mk_reformatted {
  source : qc_row;
  SeriesTime_str : string;
  dicom_filename_ends_with : string
}.

(** Line 453-455. *)
Definition keep (r : qc_row) : bool :=
  ne_zero (Completed r) && ne_Bad (ABCD_Compliant r).

(** Line 467-469: the lambda applied to one SeriesTime cell. *)
Definition pad_SeriesTime (x : cell) : option string :=
  if notna x then z <- py_int x ;; Some (zfill 6 (str_int z))
  else Some "000000".

(** Line 472-474. *)
Definition filename_suffix (date : cell) (time : string) : string :=
  hd EmptyString (split "." (astype_str date ++ time)%string).

Definition reformat_row (r : qc_row) : option reformatted_row :=
  t <- pad_SeriesTime (SeriesTime r) ;;
  Some (mk_reformatted r t (filename_suffix (StudyDate r) t)).

(** [Series.apply]: the first exception aborts the whole column. *)
Fixpoint apply_rows (rows : list qc_row) : option (list reformatted_row) :=
  match rows with
  | [] => Some []
  | r :: rows' =>
      r' <- reformat_row r ;;
      rest <- apply_rows rows' ;;
      Some (r' :: rest)
  end.

(** Lines 453-474 of [reformat_fastqc_spreadsheet]; [None] means the function
    raised and nothing was written. *)
Definition reformat_fastqc_spreadsheet (all_qc_data : list qc_row)
  : option (list reformatted_row) :=
  apply_rows (filter keep all_qc_data).

End Normalizer.

(** * Sample data *)

Module Samples.
Import Downloader.

Definition sample (ty : string) (u : Q) (name : string) : series_row :=
  mk_row "sub-ABC123" "ses-00A" ty
         (CFloat u (if Qeq_bool u 0 then "0.0" else "1.0")) name.

Definition t1_row : series_row := sample "ABCD-T1" 1 "anat/ABCD-T1_run-20180101093015.dicom.tgz".
Definition t1n_row : series_row :=
  sample "ABCD-T1-NORM" 1 "anat/ABCD-T1-NORM_run-20180101093015.dicom.tgz".
Definition t2_row : series_row := sample "ABCD-T2" 1 "anat/ABCD-T2_run-20180101094501.dicom.tgz".
Definition rs_row : series_row :=
  sample "ABCD-rsfMRI" 1 "func/ABCD-rsfMRI_run-20180101100210.dicom.tgz".
Definition ap_row : series_row :=
  sample "ABCD-fMRI-FM-AP" 1 "fmap/ABCD-fMRI-FM-AP_run-20180101095900.dicom.tgz".
Definition ap_bad : series_row :=
  sample "ABCD-fMRI-FM-AP" 0 "fmap/ABCD-fMRI-FM-AP_run-20180101095800.dicom.tgz".
Definition pa_row : series_row :=
  sample "ABCD-fMRI-FM-PA" 1 "fmap/ABCD-fMRI-FM-PA_run-20180101100000.dicom.tgz".
Definition dti_row : series_row :=
  sample "ABCD-DTI" 1 "dwi/ABCD-DTI_run-20180101103000.dicom.tgz".
Definition dap_bad : series_row :=
  sample "ABCD-Diffusion-FM-AP" 0 "fmap/ABCD-Diffusion-FM-AP_run-20180101102900.dicom.tgz".
Definition dpa_row : series_row :=
  sample "ABCD-Diffusion-FM-PA" 1 "fmap/ABCD-Diffusion-FM-PA_run-20180101102930.dicom.tgz".

Definition fm_row : series_row :=
  sample "ABCD-fMRI-FM" 1 "fmap/ABCD-fMRI-FM_run-20180101095700.dicom.tgz".
Definition dfm_row : series_row :=
  sample "ABCD-Diffusion-FM" 1 "fmap/ABCD-Diffusion-FM_run-20180101102800.dicom.tgz".
Definition dap_row : series_row :=
  sample "ABCD-Diffusion-FM-AP" 1 "fmap/ABCD-Diffusion-FM-AP_run-20180101102910.dicom.tgz".

(** A session with ten thousand usable T1-NORM series. *)
Definition many_t1n : DataFrame := repeat t1n_row (Z.to_nat 10000).

(** A session with ten thousand usable T2 series. *)
Definition many_t2 : DataFrame := repeat t2_row (Z.to_nat 10000).

End Samples.

Module QcSamples.
Import Normalizer.

Definition qc_sample (date time : cell) : qc_row :=
  mk_qc_row (CStr "NDAR_INVABC123") (CStr "S012_INVABC123_20180101") (CStr "baseline_year_1_arm_1")
            (CStr "T1") (CStr "Yes") (CStr "ABCD-T1") (CInt 1) date time (CInt 1).

Definition good_row : qc_row := qc_sample (CInt 20180101) (CInt 93015).
Definition nan_time_row : qc_row := qc_sample (CInt 20180101) CNaN.
Definition bad_time_row : qc_row := qc_sample (CInt 20180101) (CStr "09:30:15").
Definition long_time_row : qc_row := qc_sample (CInt 20180101) (CInt 1234567).
Definition float_date_row : qc_row :=
  qc_sample (CFloat 20180101 "20180101.0") (CFloat 93015 "93015.0").
Definition incomplete_bad_time_row : qc_row :=
  mk_qc_row (CStr "NDAR_INVABC123") (CStr "S012_INVABC123_20180101") (CStr "baseline_year_1_arm_1")
            (CStr "T1") (CStr "Yes") (CStr "ABCD-T1") (CInt 0)
            (CInt 20180101) (CStr "09:30:15") (CInt 1).

End QcSamples.

(** * The rest of the two programs *)

(** ** List arguments handed from the wrapper to the downloader *)

Module Args.

(** [sep.join(items)] *)
Fixpoint join (sep : string) (items : list string) : string :=
  match items with
  | [] => EmptyString
  | x :: rest =>
      match rest with
      | [] => x
      | _ :: _ => (x ++ sep ++ join sep rest)%string
      end
  end.




End Args.

(** ** Cell clean-up and path templates of [reformat_fastqc_spreadsheet] *)

Module PathTable.
Import Normalizer.

Definition quote : ascii := "034"%char.

Fixpoint lstrip_char (q : ascii) (s : string) : string :=
  match s with
  | EmptyString => EmptyString
  | String c s' => if (c =? q)%char then lstrip_char q s' else s
  end.

Fixpoint rstrip_char (q : ascii) (s : string) : string :=
  match s with
  | EmptyString => EmptyString
  | String c s' =>
      match rstrip_char q s' with
      | EmptyString => if (c =? q)%char then EmptyString else String c EmptyString
      | r => String c r
      end
  end.

(** [s.strip(q)] for a one-character [q]. *)
Definition strip_char (q : ascii) (s : string) : string :=
  rstrip_char q (lstrip_char q s).

(** [s.isnumeric()] on ASCII text: not empty, digits only. *)
Definition isnumeric (s : string) : bool :=
  negb (s =? EmptyString) && all_digits s.

(** Lines 441-442, the two [applymap] passes on one cell: quotes are taken
    off strings, then a string that is numeric becomes an int.  [None] is the
    ValueError of [int]. *)
Definition clean_cell (x : cell) : option cell :=
  match x with
  | CStr s =>
      let s := strip_char quote s in
      if isnumeric s then z <- int_of_str s ;; Some (CInt z)
      else Some (CStr s)
  | _ => Some x
  end.

(** Lines 445-449. *)
Definition clean_headers (columns : list string) : list string :=
  map (strip_char quote) columns.

(** [s.replace(old, new)] for a non-empty [old]: occurrences are replaced
    left to right and do not overlap.  [skip] counts the characters of a
    matched occurrence still to be passed over. *)
Fixpoint replace_from (old new : string) (skip : nat) (s : string) : string :=
  match s with
  | EmptyString => EmptyString
  | String c s' =>
      match skip with
      | S k => replace_from old new k s'
      | O =>
          if prefix old s
          then (new ++ replace_from old new (String.length old - 1) s')%string
          else String c (replace_from old new 0 s')
      end
  end.

Definition replace (old new s : string) : string := replace_from old new 0 s.

(** The series types that come with an event file. *)
Definition task_types : list string :=
  ["fMRI_nBack_task"; "fMRI_MID_task"; "fMRI_SST_task"].

(** The if-chain of [determine_file_path], lines 480-511, that sets
    [base_path]. *)
Definition base_path (series_type filename_suffix : string) : option string :=
  if series_type =? "T1_NORM" then
    Some ("anat/ABCD-T1-NORM_run-" ++ filename_suffix ++ ".dicom.tgz")%string
  else if series_type =? "T1" then
    Some ("anat/ABCD-T1_run-" ++ filename_suffix ++ ".dicom.tgz")%string
  else if series_type =? "T2_NORM" then
    Some ("anat/ABCD-T2-NORM_run-" ++ filename_suffix ++ ".dicom.tgz")%string
  else if series_type =? "T2" then
    Some ("anat/ABCD-T2_run-" ++ filename_suffix ++ ".dicom.tgz")%string
  else if series_type =? "dMRI" then
    Some ("dwi/ABCD-DTI_run-" ++ filename_suffix ++ ".dicom.tgz")%string
  else if existsb (String.eqb series_type) ["dMRI_FM_AP"; "dMRI_FM_PA"] then
    Some ("fmap/ABCD-Diffusion-FM-" ++ last (split "_" series_type) EmptyString
            ++ "_run-" ++ filename_suffix ++ ".dicom.tgz")%string
  else if existsb (String.eqb series_type) ["fMRI_FM_AP"; "fMRI_FM_PA"] then
    Some ("fmap/ABCD-fMRI-FM-" ++ last (split "_" series_type) EmptyString
            ++ "_run-" ++ filename_suffix ++ ".dicom.tgz")%string
  else if existsb (String.eqb series_type) ["fMRI_FM"] then
    Some ("fmap/ABCD-fMRI-FM_run-" ++ filename_suffix ++ ".dicom.tgz")%string
  else if existsb (String.eqb series_type) ["dMRI_FM"] then
    Some ("fmap/ABCD-Diffusion-FM_run-" ++ filename_suffix ++ ".dicom.tgz")%string
  else if series_type =? "rsfMRI" then
    Some ("func/ABCD-" ++ series_type ++ "_run-" ++ filename_suffix
            ++ ".dicom.tgz")%string
  else if existsb (String.eqb series_type) task_types then
    let task_name := nth 1 (split "_" series_type) EmptyString in
    let cleaned_series_type := (task_name ++ "-fMRI")%string in
    Some ("func/ABCD-" ++ cleaned_series_type ++ "_run-" ++ filename_suffix
            ++ ".dicom.tgz")%string
  else None.

(** [determine_file_path], lines 477-527, on the two fields of the row it
    reads.  A series type that is not a string equals none of the names. *)
Definition determine_file_path (SeriesType : cell) (filename_suffix : string)
  : option string :=
  match SeriesType with
  | CStr series_type =>
      let base_path := base_path series_type filename_suffix in
      let json_path := option_map (replace ".dicom.tgz" ".json") base_path in
      let event_related_info_path :=
        if existsb (String.eqb series_type) task_types
        then option_map (replace ".dicom.tgz" "-EventRelatedInformation.txt") base_path
        else None in
      match base_path, json_path with
      | Some base_path, Some json_path =>
          match event_related_info_path with
          | Some event_related_info_path =>
              Some (base_path ++ ";" ++ json_path ++ ";" ++ event_related_info_path)%string
          | None => Some (base_path ++ ";" ++ json_path)%string
          end
      | _, _ => None
      end
  | _ => None
  end.

(** Line 529: the [file_path] column of a reformatted row. *)
Definition file_path (r' : reformatted_row) : option string :=
  determine_file_path (SeriesType (source r')) (dicom_filename_ends_with r').

(** The template table the if-chain implements: series type, path stem up
    to the suffix, and whether an event file goes with it. *)
Definition templates : list (string * string * bool) :=
  [("T1_NORM", "anat/ABCD-T1-NORM_run-", false);
   ("T1", "anat/ABCD-T1_run-", false);
   ("T2_NORM", "anat/ABCD-T2-NORM_run-", false);
   ("T2", "anat/ABCD-T2_run-", false);
   ("dMRI", "dwi/ABCD-DTI_run-", false);
   ("dMRI_FM_AP", "fmap/ABCD-Diffusion-FM-AP_run-", false);
   ("dMRI_FM_PA", "fmap/ABCD-Diffusion-FM-PA_run-", false);
   ("fMRI_FM_AP", "fmap/ABCD-fMRI-FM-AP_run-", false);
   ("fMRI_FM_PA", "fmap/ABCD-fMRI-FM-PA_run-", false);
   ("fMRI_FM", "fmap/ABCD-fMRI-FM_run-", false);
   ("dMRI_FM", "fmap/ABCD-Diffusion-FM_run-", false);
   ("rsfMRI", "func/ABCD-rsfMRI_run-", false);
   ("fMRI_nBack_task", "func/ABCD-nBack-fMRI_run-", true);
   ("fMRI_MID_task", "func/ABCD-MID-fMRI_run-", true);
   ("fMRI_SST_task", "func/ABCD-SST-fMRI_run-", true)].

(** The files one table entry stands for. *)
Definition files_of (stem suffix : string) (events : bool) : list string :=
  [(stem ++ suffix ++ ".dicom.tgz")%string; (stem ++ suffix ++ ".json")%string]
  ++ (if events then [(stem ++ suffix ++ "-EventRelatedInformation.txt")%string] else []).

End PathTable.

(** ** The step loop and argument checks of [abcd2bids.py] *)

Module Wrapper.

Definition STEP_NAMES : list string :=
  ["reformat_fastqc_spreadsheet"; "download_s3_data"; "unpack_and_setup";
   "correct_jsons"; "validate_bids"].



(** The loop of [main], lines 76-90.  [step_ok step] says whether the call
    [globals()[step](cli_args)] returns; an exception ends [main] there.  The
    result is the steps called, in order, and whether the final
    [cleanup(cli_args.temp, 0)] is reached. *)
Fixpoint run_steps (step_ok : string -> bool) (start_at : string)
    (steps : list string) (started : bool) : list string * bool :=
  match steps with
  | [] => ([], true)
  | step :: rest =>
      let started := if step =? start_at then true else started in
      if started then
        if step_ok step then
          let '(called, finished) := run_steps step_ok start_at rest started in
          (step :: called, finished)
        else ([step], false)
      else run_steps step_ok start_at rest started
  end.

Definition main (step_ok : string -> bool) (start_at : string) : list string * bool :=
  run_steps step_ok start_at STEP_NAMES false.



End Wrapper.

(** ** Vocabulary for statements about a whole run of the downloader *)

Module Run.
Import Downloader.

(** The slice of the table [main] computes for one subject and session. *)
Definition session_slice (series_df : DataFrame) (sub bids_year : string) : DataFrame :=
  filter (fun r => EventName r =? ("ses-" ++ bids_year)%string)
         (filter (fun r => pGUID r =? ("sub-" ++ sub)%string) series_df).

(** The counts the selectors give for that slice. *)
Definition session_counts (modalities : list string) (series_df : DataFrame)
    (sub bids_year : string) : counts :=
  match select_session modalities (session_slice series_df sub bids_year) with
  | Some (_, c) => c
  | None => counts0
  end.

(** The paths the selectors give for that slice. *)
Definition session_paths (modalities : list string) (series_df : DataFrame)
    (sub bids_year : string) : list string :=
  match select_session modalities (session_slice series_df sub bids_year) with
  | Some (file_paths, _) => file_paths
  | None => []
  end.

(** One row per subject and session, subjects outermost. *)
Definition rows_of_run (modalities : list string) (series_df : DataFrame)
    (subject_list year_list : list string) : list (string * string * counts) :=
  flat_map (fun sub =>
              map (fun bids_year =>
                     (("sub-" ++ sub)%string, ("ses-" ++ bids_year)%string,
                      session_counts modalities series_df sub bids_year))
                  year_list)
           subject_list.

(** How many manifest rows satisfy a test on their counts. *)
Definition rows_with (test : counts -> bool) (rows : list (string * string * counts)) : Z :=
  Z.of_nat (List.length (filter (fun row => test (snd row)) rows)).

Definition counted (n : Z) : bool := negb (n =? 0)%Z.

Definition counted_func (n : Z) : bool := negb (n =? 0)%Z && negb (n =? 10000)%Z.

(** The running totals say what the manifest rows say. *)
Definition stats_agree (t : totals) (rows : list (string * string * counts)) : Prop :=
  num_sub_visits t = Z.of_nat (List.length rows) /\
  num_t1 t = rows_with (fun c => counted (has_t1 c)) rows /\
  num_t2 t = rows_with (fun c => counted (has_t2 c)) rows /\
  num_dti t = rows_with (fun c => counted (has_dti c)) rows /\
  num_rsfmri t = rows_with (fun c => counted_func (has_rsfmri c)) rows /\
  num_mid t = rows_with (fun c => counted_func (has_mid c)) rows /\
  num_sst t = rows_with (fun c => counted_func (has_sst c)) rows /\
  num_nback t = rows_with (fun c => counted_func (has_nback c)) rows.

(** [path] is the file name of a row of [df] whose usable flag is not 0. *)
Definition from_usable_row (df : DataFrame) (path : string) : Prop :=
  exists r, In r df /\ ne_zero (usable r) = true /\ filename r = path.

Section MissingLines.

Variable s3_bucket : string.
Variable s3_ls : string -> bool.
Variable s3_get : string -> string -> string -> bool.

(** The lines a whole run adds to the missing-files log. *)
Definition missing_lines (modalities : list string) (series_df : DataFrame)
    (subject_list year_list : list string) : list string :=
  flat_map (fun sub =>
              flat_map (fun bids_year =>
                          download s3_bucket s3_ls s3_get ("sub-" ++ sub)%string bids_year
                                   (session_paths modalities series_df sub bids_year))
                       year_list)
           subject_list.

End MissingLines.

End Run.

(** * Properties of the selectors and of the manifest accumulator *)

Module SelectorFacts.
Import Downloader Samples.

(** *** Lists and frames *)

Lemma add_filenames_app (df : DataFrame) (file_paths : list string) :
  add_filenames df file_paths = file_paths ++ map filename df.
Proof.
  unfold add_filenames.
  revert file_paths.
  induction df as [| r df IH]; intros file_paths; simpl.
  - now rewrite app_nil_r.
  - rewrite IH, <- app_assoc. reflexivity.
Qed.

Lemma empty_true (df : DataFrame) : empty df = true <-> df = [].
Proof. destruct df; simpl; split; congruence. Qed.

Lemma empty_false (df : DataFrame) : empty df = false <-> df <> [].
Proof. destruct df; simpl; split; congruence. Qed.

Lemma shape0_nonneg (df : DataFrame) : 0 <= shape0 df.
Proof. unfold shape0. lia. Qed.

Lemma shape0_nil_iff (df : DataFrame) : shape0 df = 0 <-> df = [].
Proof.
  unfold shape0. destruct df; simpl; split; try congruence; lia.
Qed.

Lemma by_type_length (ty : string) (df : DataFrame) :
  (List.length (by_type ty df) <= List.length df)%nat.
Proof. unfold by_type. apply filter_length_le. Qed.

Lemma by_type_In (ty : string) (df : DataFrame) (r : series_row) :
  In r (by_type ty df) <-> In r df /\ SeriesType r = ty.
Proof.
  unfold by_type. rewrite filter_In, String.eqb_eq. reflexivity.
Qed.

Lemma by_type_nil (ty : string) (df : DataFrame) :
  (forall r, In r df -> SeriesType r <> ty) -> by_type ty df = [].
Proof.
  intros H. destruct (by_type ty df) as [| r l] eqn:E; [reflexivity |].
  assert (Hin : In r (by_type ty df)) by (rewrite E; now left).
  apply by_type_In in Hin. destruct Hin as [Hin Hty]. now apply H in Hin.
Qed.

(** Two different series types select disjoint parts of a slice. *)
Lemma by_type_two_length (ty1 ty2 : string) (df : DataFrame) :
  ty1 <> ty2 ->
  (List.length (by_type ty1 df) + List.length (by_type ty2 df) <= List.length df)%nat.
Proof.
  intros Hne. induction df as [| r df IH]; simpl; [lia |].
  destruct (SeriesType r =? ty1) eqn:E1; destruct (SeriesType r =? ty2) eqn:E2;
    simpl; try lia.
  apply String.eqb_eq in E1. apply String.eqb_eq in E2. congruence.
Qed.

(** *** The pairing loop *)

Lemma nth_error_skipn {A : Type} (l : list A) (k : nat) (a : A) :
  nth_error l k = Some a -> skipn k l = a :: skipn (S k) l.
Proof.
  revert l. induction k as [| k IH]; intros [| x l] H; simpl in *; try discriminate.
  - now inversion H.
  - now apply IH.
Qed.

Lemma nth_error_in_range {A : Type} (l : list A) (k : nat) :
  (k < List.length l)%nat -> exists a, nth_error l k = Some a.
Proof.
  intros H. destruct (nth_error l k) eqn:E; [eauto |].
  apply nth_error_None in E. lia.
Qed.

(** Running the loop over the indices [k, k+n) appends the usable pairs found
    at those positions, and never indexes out of range. *)
Lemma pair_loop_seq (AP_df PA_df : DataFrame) (n : nat) :
  forall (k : nat) (FM_df : DataFrame),
    (k + n <= List.length AP_df)%nat -> (k + n <= List.length PA_df)%nat ->
    pair_loop AP_df PA_df (seq k n) FM_df =
    Some (FM_df ++ pair_rows (usable_pairs (firstn n (skipn k AP_df))
                                           (firstn n (skipn k PA_df)))).
Proof.
  induction n as [| n IH]; intros k FM_df HA HP; simpl.
  - now rewrite app_nil_r.
  - destruct (nth_error_in_range AP_df k) as [a Ha]; [lia |].
    destruct (nth_error_in_range PA_df k) as [p Hp]; [lia |].
    unfold iloc. rewrite Ha. simpl.
    rewrite (nth_error_skipn _ _ _ Ha), (nth_error_skipn _ _ _ Hp).
    change (firstn (S n) (a :: skipn (S k) AP_df)) with (a :: firstn n (skipn (S k) AP_df)).
    change (firstn (S n) (p :: skipn (S k) PA_df)) with (p :: firstn n (skipn (S k) PA_df)).
    unfold usable_pairs. simpl combine. simpl filter.
    unfold both_usable at 1. simpl fst. simpl snd.
    destruct (ne_zero (usable a)) eqn:Ua; simpl.
    + rewrite Hp. simpl.
      destruct (ne_zero (usable p)) eqn:Up; simpl.
      * rewrite IH by lia. unfold usable_pairs.
        rewrite <- !app_assoc. reflexivity.
      * rewrite IH by lia. reflexivity.
    + rewrite IH by lia. reflexivity.
Qed.

Lemma upper_range_min (AP_df PA_df : DataFrame) :
  upper_range AP_df PA_df = Nat.min (List.length AP_df) (List.length PA_df).
Proof.
  unfold upper_range.
  destruct (List.length AP_df <=? List.length PA_df)%nat eqn:E.
  - apply Nat.leb_le in E. lia.
  - apply Nat.leb_gt in E. lia.
Qed.

Lemma combine_firstn_min {A B : Type} (l : list A) (l' : list B) :
  combine (firstn (Nat.min (List.length l) (List.length l')) l)
          (firstn (Nat.min (List.length l) (List.length l')) l') = combine l l'.
Proof.
  rewrite <- combine_firstn. apply firstn_all2. rewrite length_combine. lia.
Qed.

(** The loop as both selectors run it: total, and equal to the zip-and-filter
    reading of the pairing rule. *)
Lemma pair_by_index_spec (AP_df PA_df FM_df : DataFrame) :
  pair_by_index AP_df PA_df FM_df =
  Some (FM_df ++ pair_rows (usable_pairs AP_df PA_df)).
Proof.
  unfold pair_by_index.
  rewrite pair_loop_seq; rewrite upper_range_min; try lia.
  simpl skipn. unfold usable_pairs. now rewrite combine_firstn_min.
Qed.

Lemma In_combine_nth_error {A B : Type} (l : list A) (l' : list B) (a : A) (b : B) :
  In (a, b) (combine l l') <->
  exists i, nth_error l i = Some a /\ nth_error l' i = Some b.
Proof.
  revert l'. induction l as [| x l IH]; intros [| y l']; simpl.
  - split; [tauto | intros [[| i] [H _]]; discriminate].
  - split; [tauto | intros [[| i] [H _]]; discriminate].
  - split; [tauto | intros [[| i] [_ H]]; discriminate].
  - rewrite IH. split.
    + intros [E | [i Hi]].
      * inversion E; subst. now exists 0%nat.
      * now exists (S i).
    + intros [[| i] [Ha Hb]]; simpl in *.
      * left. congruence.
      * right. eauto.
Qed.

(** Membership in the selected pairs, by index. *)
Lemma usable_pairs_In (AP_df PA_df : DataFrame) (a p : series_row) :
  In (a, p) (usable_pairs AP_df PA_df) <->
  exists i, (i < Nat.min (List.length AP_df) (List.length PA_df))%nat /\
            nth_error AP_df i = Some a /\ nth_error PA_df i = Some p /\
            ne_zero (usable a) = true /\ ne_zero (usable p) = true.
Proof.
  unfold usable_pairs. rewrite filter_In, In_combine_nth_error.
  unfold both_usable. simpl. rewrite andb_true_iff. split.
  - intros [[i [Ha Hp]] [Ua Up]]. exists i. repeat split; try assumption.
    assert (nth_error AP_df i <> None) by congruence.
    assert (nth_error PA_df i <> None) by congruence.
    rewrite nth_error_Some in *. lia.
  - intros [i [_ [Ha [Hp [Ua Up]]]]]. eauto.
Qed.

Lemma pair_rows_length (pairs : list (series_row * series_row)) :
  List.length (pair_rows pairs) = (2 * List.length pairs)%nat.
Proof.
  unfold pair_rows. induction pairs as [| x l IH]; simpl; [reflexivity |].
  simpl in IH. rewrite IH. lia.
Qed.

Lemma pair_rows_nil_iff (pairs : list (series_row * series_row)) :
  pair_rows pairs = [] <-> pairs = [].
Proof. destruct pairs; simpl; split; congruence. Qed.

(** *** The selectors in closed form *)

(** The block repeated for every series type: nothing is added and the count
    is 0 exactly when the selection is empty. *)
Lemma take_all_eq (df : DataFrame) (file_paths : list string) :
  (if empty df then (file_paths, 0)
   else (add_filenames df file_paths, shape0 df)) =
  (file_paths ++ map filename df, shape0 df).
Proof.
  destruct df as [| r df]; simpl empty; cbv iota.
  - simpl. now rewrite app_nil_r.
  - now rewrite add_filenames_app.
Qed.

Lemma add_func_paths_eq (all_group passed_QC_group : DataFrame) (file_paths : list string) :
  add_func_paths all_group passed_QC_group file_paths =
  Some
    (if existsb (isin ["ABCD-rsfMRI"; "ABCD-MID-fMRI"; "ABCD-nBack-fMRI"; "ABCD-SST-fMRI"])
          passed_QC_group
     then
       let FM_df := sefm_rows all_group passed_QC_group in
       if empty FM_df then (file_paths, 0, 10000, 10000, 10000, 10000)
       else
         (((((file_paths ++ map filename FM_df)
               ++ map filename (by_type "ABCD-rsfMRI" passed_QC_group))
              ++ map filename (by_type "ABCD-MID-fMRI" passed_QC_group))
             ++ map filename (by_type "ABCD-SST-fMRI" passed_QC_group))
            ++ map filename (by_type "ABCD-nBack-fMRI" passed_QC_group),
          shape0 FM_df,
          shape0 (by_type "ABCD-rsfMRI" passed_QC_group),
          shape0 (by_type "ABCD-MID-fMRI" passed_QC_group),
          shape0 (by_type "ABCD-SST-fMRI" passed_QC_group),
          shape0 (by_type "ABCD-nBack-fMRI" passed_QC_group))
     else (file_paths, 0, 0, 0, 0, 0)).
Proof.
  unfold add_func_paths, sefm_rows.
  destruct (existsb _ passed_QC_group); [| reflexivity].
  set (FMc := by_type "ABCD-fMRI-FM" passed_QC_group).
  set (AP := by_type "ABCD-fMRI-FM-AP" all_group).
  set (PA := by_type "ABCD-fMRI-FM-PA" all_group).
  assert (E : (if empty FMc
               then if empty AP then Some FMc else pair_by_index AP PA FMc
               else Some FMc) =
              Some (if empty FMc then pair_rows (usable_pairs AP PA) else FMc)).
  { destruct FMc as [| r l]; simpl empty; cbv iota; [| reflexivity].
    destruct AP as [| a l]; simpl empty; cbv iota; [reflexivity |].
    now rewrite pair_by_index_spec. }
  rewrite E. cbv beta iota delta [bind].
  destruct (empty (if empty FMc then pair_rows (usable_pairs AP PA) else FMc));
    [reflexivity |].
  rewrite !take_all_eq, add_filenames_app. reflexivity.
Qed.

Lemma add_dwi_paths_eq (all_group passed_QC_group : DataFrame) (file_paths : list string) :
  add_dwi_paths all_group passed_QC_group file_paths =
  Some
    (let DTI_df := by_type "ABCD-DTI" passed_QC_group in
     if (1 <=? shape0 DTI_df)%Z then
       let DTI_FM_df := by_type "ABCD-Diffusion-FM" passed_QC_group in
       if empty DTI_FM_df then
         let AP := by_type "ABCD-Diffusion-FM-AP" all_group in
         let PA := by_type "ABCD-Diffusion-FM-PA" all_group in
         if empty AP then (file_paths, 0)
         else if empty (pair_rows (usable_pairs AP PA)) then (file_paths, shape0 DTI_df)
         else ((file_paths ++ map filename DTI_df)
                 ++ map filename (pair_rows (usable_pairs AP PA)), shape0 DTI_df)
       else ((file_paths ++ map filename DTI_df) ++ map filename DTI_FM_df, shape0 DTI_df)
     else (file_paths, shape0 DTI_df)).
Proof.
  unfold add_dwi_paths. cbv zeta.
  destruct (1 <=? shape0 (by_type "ABCD-DTI" passed_QC_group))%Z; [| reflexivity].
  destruct (empty (by_type "ABCD-Diffusion-FM" passed_QC_group)).
  - destruct (empty (by_type "ABCD-Diffusion-FM-AP" all_group)); [reflexivity |].
    rewrite pair_by_index_spec. cbv beta iota delta [bind]. rewrite app_nil_l.
    destruct (empty (pair_rows _)); simpl negb; cbv iota; [reflexivity |].
    now rewrite !add_filenames_app.
  - simpl negb. cbv iota. now rewrite !add_filenames_app.
Qed.

(** The anatomical choice for one contrast: the NORM rows when there are
    any, the plain rows otherwise. *)
Lemma add_anat_paths_eq (passed_QC_group : DataFrame) (file_paths : list string) :
  add_anat_paths passed_QC_group file_paths =
  (let T1_df := if empty (by_type "ABCD-T1-NORM" passed_QC_group)
                then by_type "ABCD-T1" passed_QC_group
                else by_type "ABCD-T1-NORM" passed_QC_group in
   let T2_df := if empty (by_type "ABCD-T2-NORM" passed_QC_group)
                then by_type "ABCD-T2" passed_QC_group
                else by_type "ABCD-T2-NORM" passed_QC_group in
   ((file_paths ++ map filename T1_df) ++ map filename T2_df,
    shape0 T1_df, shape0 T2_df)).
Proof.
  unfold add_anat_paths. cbv zeta.
  destruct (empty (by_type "ABCD-T1-NORM" passed_QC_group)).
  - rewrite take_all_eq.
    destruct (empty (by_type "ABCD-T2-NORM" passed_QC_group)).
    + now rewrite take_all_eq.
    + now rewrite add_filenames_app.
  - rewrite add_filenames_app.
    destruct (empty (by_type "ABCD-T2-NORM" passed_QC_group)).
    + now rewrite take_all_eq.
    + now rewrite add_filenames_app.
Qed.

Lemma usable_pairs_nil (AP_df PA_df : DataFrame) :
  (forall i a p, nth_error AP_df i = Some a -> nth_error PA_df i = Some p ->
                 ne_zero (usable a) && ne_zero (usable p) = false) ->
  usable_pairs AP_df PA_df = [].
Proof.
  intros H. destruct (usable_pairs AP_df PA_df) as [| [a p] l] eqn:E; [reflexivity |].
  assert (Hin : In (a, p) (usable_pairs AP_df PA_df)) by (rewrite E; now left).
  apply usable_pairs_In in Hin. destruct Hin as [i [_ [Ha [Hp [Ua Up]]]]].
  specialize (H i a p Ha Hp). rewrite Ua, Up in H. discriminate.
Qed.

Lemma any_isin (tys : list string) (df : DataFrame) :
  existsb (isin tys) df = true <-> exists r, In r df /\ In (SeriesType r) tys.
Proof.
  rewrite existsb_exists. split; intros [r [Hin H]]; exists r; split; try assumption.
  - unfold isin in H. apply existsb_exists in H. destruct H as [ty [Hty E]].
    apply String.eqb_eq in E. now subst.
  - unfold isin. apply existsb_exists. exists (SeriesType r). split; [assumption |].
    apply String.eqb_refl.
Qed.

(** *** The two worked sessions of the specification *)

Example session_with_field_map_pair :
  select_session ["anat"; "func"; "dwi"] [t1_row; t1n_row; rs_row; ap_row; pa_row] =
  Some ([filename t1n_row; filename ap_row; filename pa_row; filename rs_row],
        mk_counts 1 0 2 1 0 0 0 0).
Proof. reflexivity. Qed.

Example session_without_PA_field_map :
  select_session ["anat"; "func"; "dwi"] [t1_row; t1n_row; rs_row; ap_row] =
  Some ([filename t1n_row], mk_counts 1 0 0 10000 10000 10000 10000 0).
Proof. reflexivity. Qed.

(** *** Claims about the selectors *)

(** C1. When a resting-state or task series passes QC but no combined
    fMRI field map passes and either there is no AP candidate in the full
    slice or no index-aligned AP/PA pair has both members usable, the
    functional selector adds nothing, reports SEFM count 0, and reports the
    sentinel 10000 for rsfMRI, MID, SST and nBack. *)
Theorem func_sentinel_without_field_map
    (all_group passed_QC_group : DataFrame) (file_paths : list string) :
  (exists r, In r passed_QC_group /\
             In (SeriesType r)
                ["ABCD-rsfMRI"; "ABCD-MID-fMRI"; "ABCD-SST-fMRI"; "ABCD-nBack-fMRI"]) ->
  by_type "ABCD-fMRI-FM" passed_QC_group = [] ->
  (by_type "ABCD-fMRI-FM-AP" all_group = [] \/
   forall i a p,
     nth_error (by_type "ABCD-fMRI-FM-AP" all_group) i = Some a ->
     nth_error (by_type "ABCD-fMRI-FM-PA" all_group) i = Some p ->
     ne_zero (usable a) && ne_zero (usable p) = false) ->
  add_func_paths all_group passed_QC_group file_paths =
  Some (file_paths, 0, SENTINEL, SENTINEL, SENTINEL, SENTINEL).
Proof.
  intros [r [Hin Hty]] HFM Hpairs.
  rewrite add_func_paths_eq.
  assert (Hany : existsb (isin ["ABCD-rsfMRI"; "ABCD-MID-fMRI"; "ABCD-nBack-fMRI";
                                "ABCD-SST-fMRI"]) passed_QC_group = true).
  { apply any_isin. exists r. split; [assumption |].
    simpl in Hty |- *. tauto. }
  rewrite Hany. cbv zeta.
  assert (Hnone : sefm_rows all_group passed_QC_group = []).
  { unfold sefm_rows. rewrite HFM. simpl empty. cbv iota.
    apply pair_rows_nil_iff. apply usable_pairs_nil.
    destruct Hpairs as [HAP | H]; [| exact H].
    rewrite HAP. intros [| i] a p Ha; discriminate. }
  rewrite Hnone. reflexivity.
Qed.

Lemma func_sentinel_without_field_map_witness :
  add_func_paths [rs_row; ap_bad; pa_row] [rs_row; pa_row] [] =
  Some ([], 0, SENTINEL, SENTINEL, SENTINEL, SENTINEL).
Proof.
  apply func_sentinel_without_field_map.
  - exists rs_row. simpl. tauto.
  - reflexivity.
  - right. intros [| [| i]] a p Ha Hp; simpl in Ha, Hp; try discriminate.
    inversion Ha; subst. reflexivity.
Defined.

(** C2, as stated, fails: with one passing DTI row and no diffusion
    field-map row of any kind in the session, the selector returns DTI
    count 0 although one DTI row passes QC. *)
Lemma dwi_count_not_row_count :
  shape0 (by_type "ABCD-DTI" [dti_row]) = 1 /\
  add_dwi_paths [dti_row] [dti_row] [] = Some ([], 0).
Proof. split; reflexivity. Qed.

(** C2, amended.  With at least one passing DTI row the diffusion selector
    always returns.  Its DTI count is the number of passing DTI rows when a
    combined diffusion field map passes QC or the full slice holds at least
    one Diffusion-FM-AP candidate, and 0 when neither is the case.  When no
    combined map passes and no index-aligned AP/PA pair is usable, the path
    list comes back unchanged; no sentinel is involved. *)
Theorem dwi_count_and_exclusion
    (all_group passed_QC_group : DataFrame) (file_paths : list string) :
  (1 <= shape0 (by_type "ABCD-DTI" passed_QC_group))%Z ->
  exists file_paths' has_dti,
    add_dwi_paths all_group passed_QC_group file_paths = Some (file_paths', has_dti) /\
    (by_type "ABCD-Diffusion-FM" passed_QC_group <> [] \/
     by_type "ABCD-Diffusion-FM-AP" all_group <> [] ->
     has_dti = shape0 (by_type "ABCD-DTI" passed_QC_group)) /\
    (by_type "ABCD-Diffusion-FM" passed_QC_group = [] ->
     by_type "ABCD-Diffusion-FM-AP" all_group = [] ->
     has_dti = 0) /\
    (by_type "ABCD-Diffusion-FM" passed_QC_group = [] ->
     usable_pairs (by_type "ABCD-Diffusion-FM-AP" all_group)
                  (by_type "ABCD-Diffusion-FM-PA" all_group) = [] ->
     file_paths' = file_paths).
Proof.
  intros Hdti. rewrite add_dwi_paths_eq. cbv zeta.
  apply Z.leb_le in Hdti. rewrite Hdti.
  destruct (by_type "ABCD-Diffusion-FM" passed_QC_group) as [| f FMc] eqn:EF;
    simpl empty; cbv iota.
  - destruct (by_type "ABCD-Diffusion-FM-AP" all_group) as [| a AP] eqn:EA;
      simpl empty; cbv iota.
    + eexists _, _. split; [reflexivity |].
      repeat split; try reflexivity. intros [H | H]; congruence.
    + destruct (usable_pairs (a :: AP) _) as [| x l] eqn:EP.
      * eexists _, _. split; [reflexivity |].
        repeat split; try reflexivity; intros; congruence.
      * eexists _, _. split; [reflexivity |].
        repeat split; try reflexivity; intros; congruence.
  - eexists _, _. split; [reflexivity |].
    repeat split; try reflexivity; intros; congruence.
Qed.

Lemma dwi_count_and_exclusion_witness :
  exists file_paths' has_dti,
    add_dwi_paths [dti_row; dap_bad; dpa_row] [dti_row; dpa_row] ["kept"] =
      Some (file_paths', has_dti) /\
    has_dti = 1 /\ file_paths' = ["kept"].
Proof.
  destruct (dwi_count_and_exclusion [dti_row; dap_bad; dpa_row] [dti_row; dpa_row] ["kept"])
    as [fp [n [E [Hcount [_ Hpaths]]]]].
  - vm_compute. discriminate.
  - exists fp, n. split; [exact E |]. split.
    + rewrite Hcount; [reflexivity |]. right. discriminate.
    + apply Hpaths; reflexivity.
Defined.

(** C3. Per contrast the anatomical selector takes the NORM rows when any
    pass QC and the plain rows otherwise, never both: the paths it adds are
    the file names of the chosen T1 rows followed by those of the chosen T2
    rows, and each count is the number of chosen rows. *)
Theorem anat_norm_preference (passed_QC_group : DataFrame) (file_paths : list string) :
  exists T1_df T2_df : DataFrame,
    add_anat_paths passed_QC_group file_paths =
      ((file_paths ++ map filename T1_df) ++ map filename T2_df,
       shape0 T1_df, shape0 T2_df) /\
    (by_type "ABCD-T1-NORM" passed_QC_group <> [] ->
     T1_df = by_type "ABCD-T1-NORM" passed_QC_group /\
     forall r, In r T1_df -> SeriesType r <> "ABCD-T1") /\
    (by_type "ABCD-T1-NORM" passed_QC_group = [] ->
     T1_df = by_type "ABCD-T1" passed_QC_group) /\
    (by_type "ABCD-T2-NORM" passed_QC_group <> [] ->
     T2_df = by_type "ABCD-T2-NORM" passed_QC_group /\
     forall r, In r T2_df -> SeriesType r <> "ABCD-T2") /\
    (by_type "ABCD-T2-NORM" passed_QC_group = [] ->
     T2_df = by_type "ABCD-T2" passed_QC_group).
Proof.
  rewrite add_anat_paths_eq. cbv zeta.
  eexists _, _. split; [reflexivity |].
  destruct (by_type "ABCD-T1-NORM" passed_QC_group) as [| a l] eqn:E1;
    destruct (by_type "ABCD-T2-NORM" passed_QC_group) as [| b l'] eqn:E2;
    simpl empty; cbv iota;
    repeat split; try congruence; try reflexivity;
    intros r Hin.
  all: try (rewrite <- E1 in Hin; apply by_type_In in Hin;
            destruct Hin as [_ Hty]; rewrite Hty; discriminate).
  all: try (rewrite <- E2 in Hin; apply by_type_In in Hin;
            destruct Hin as [_ Hty]; rewrite Hty; discriminate).
Qed.

(** C4. The fMRI pairing loop over the AP and PA candidates of the full
    slice always finishes, and what it adds is exactly the index-aligned
    pairs (AP[i], PA[i]), i below the smaller candidate count, whose two
    members both have usable <> 0, AP before PA, in index order.  Rows beyond
    the smaller count have no influence.  With a functional series passing
    QC, no combined map and at least one such pair, the SEFM count is twice
    the number of pairs. *)
Theorem fmri_pairing_by_index (all_group passed_QC_group FM_df : DataFrame)
    (file_paths : list string) :
  let AP_df := by_type "ABCD-fMRI-FM-AP" all_group in
  let PA_df := by_type "ABCD-fMRI-FM-PA" all_group in
  let m := Nat.min (List.length AP_df) (List.length PA_df) in
  pair_by_index AP_df PA_df FM_df =
    Some (FM_df ++ pair_rows (usable_pairs AP_df PA_df)) /\
  (forall a p,
     In (a, p) (usable_pairs AP_df PA_df) <->
     exists i, (i < m)%nat /\
               nth_error AP_df i = Some a /\ nth_error PA_df i = Some p /\
               ne_zero (usable a) = true /\ ne_zero (usable p) = true) /\
  pair_by_index AP_df PA_df FM_df =
    pair_by_index (firstn m AP_df) (firstn m PA_df) FM_df /\
  (existsb (isin ["ABCD-rsfMRI"; "ABCD-MID-fMRI"; "ABCD-nBack-fMRI"; "ABCD-SST-fMRI"])
           passed_QC_group = true ->
   by_type "ABCD-fMRI-FM" passed_QC_group = [] ->
   usable_pairs AP_df PA_df <> [] ->
   exists rest rs mid sst nback,
     add_func_paths all_group passed_QC_group file_paths =
       Some ((file_paths ++ map filename (pair_rows (usable_pairs AP_df PA_df))) ++ rest,
             2 * Z.of_nat (List.length (usable_pairs AP_df PA_df)),
             rs, mid, sst, nback)).
Proof.
  intros AP_df PA_df m. repeat split.
  - apply pair_by_index_spec.
  - apply usable_pairs_In.
  - apply usable_pairs_In.
  - rewrite !pair_by_index_spec. unfold usable_pairs, m.
    now rewrite combine_firstn_min.
  - intros Hany HFM Hpairs. rewrite add_func_paths_eq, Hany. cbv zeta.
    unfold sefm_rows. rewrite HFM. simpl empty. cbv iota.
    fold AP_df PA_df.
    destruct (empty (pair_rows (usable_pairs AP_df PA_df))) eqn:E.
    + apply empty_true, pair_rows_nil_iff in E. contradiction.
    + eexists _, _, _, _, _. rewrite <- !app_assoc.
      unfold shape0 at 1. rewrite pair_rows_length, Nat2Z.inj_mul.
      reflexivity.
Qed.

(** C9. Each selector returns the list it was given with new paths added
    at the end: what was accumulated before stays in place.  The functional
    and the diffusion selector always return. *)
Theorem selectors_only_append
    (all_group passed_QC_group : DataFrame) (file_paths : list string) :
  (exists added has_t1 has_t2,
     add_anat_paths passed_QC_group file_paths = (file_paths ++ added, has_t1, has_t2)) /\
  (exists added has_sefm has_rsfmri has_mid has_sst has_nback,
     add_func_paths all_group passed_QC_group file_paths =
     Some (file_paths ++ added, has_sefm, has_rsfmri, has_mid, has_sst, has_nback)) /\
  (exists added has_dti,
     add_dwi_paths all_group passed_QC_group file_paths =
     Some (file_paths ++ added, has_dti)).
Proof.
  repeat split.
  - rewrite add_anat_paths_eq. cbv zeta. rewrite <- app_assoc. eauto.
  - rewrite add_func_paths_eq.
    destruct (existsb _ passed_QC_group); cbv zeta.
    + destruct (empty (sefm_rows all_group passed_QC_group)).
      * exists []. rewrite app_nil_r. eauto 10.
      * rewrite <- !app_assoc. eauto 10.
    + exists []. rewrite app_nil_r. eauto 10.
  - rewrite add_dwi_paths_eq. cbv zeta.
    repeat match goal with
           | |- context [if ?b then _ else _] => destruct b
           end;
      try (rewrite <- app_assoc; eauto);
      exists []; rewrite app_nil_r; eauto.
Qed.

(** *** Claims about the manifest accumulator *)

(** C7, as stated, fails: a session with ten thousand usable T1-NORM series
    gets the manifest count has_t1 = 10000, the value of the sentinel, and
    the T1 total is incremented all the same. *)
Lemma t1_total_counts_value_10000 :
  option_map (fun st => (map (fun row => has_t1 (snd row)) (manifest st),
                         num_t1 (stats st)))
    (main "s3://bucket" (fun _ => true) (fun _ _ _ => true)
          ["anat"; "func"; "dwi"] many_t1n ["ABC123"] ["00A"] None) =
  Some ([SENTINEL], num_t1 totals0 + 1).
Proof. vm_compute. reflexivity. Qed.

(** C7, amended.  The rsfMRI, MID, SST and nBack totals are incremented
    exactly when the count is neither 0 nor 10000; the T1, T2 and DTI totals
    are incremented exactly when the count is not 0; a total that is not
    incremented is left as it was, and the visit total is untouched. *)
Theorem tally_increments (t : totals) (c : counts) :
  (has_t1 c <> 0 /\ num_t1 (tally t c) = num_t1 t + 1 \/
   has_t1 c = 0 /\ num_t1 (tally t c) = num_t1 t) /\
  (has_t2 c <> 0 /\ num_t2 (tally t c) = num_t2 t + 1 \/
   has_t2 c = 0 /\ num_t2 (tally t c) = num_t2 t) /\
  (has_dti c <> 0 /\ num_dti (tally t c) = num_dti t + 1 \/
   has_dti c = 0 /\ num_dti (tally t c) = num_dti t) /\
  ((has_rsfmri c <> 0 /\ has_rsfmri c <> SENTINEL) /\
     num_rsfmri (tally t c) = num_rsfmri t + 1 \/
   (has_rsfmri c = 0 \/ has_rsfmri c = SENTINEL) /\
     num_rsfmri (tally t c) = num_rsfmri t) /\
  ((has_mid c <> 0 /\ has_mid c <> SENTINEL) /\ num_mid (tally t c) = num_mid t + 1 \/
   (has_mid c = 0 \/ has_mid c = SENTINEL) /\ num_mid (tally t c) = num_mid t) /\
  ((has_sst c <> 0 /\ has_sst c <> SENTINEL) /\ num_sst (tally t c) = num_sst t + 1 \/
   (has_sst c = 0 \/ has_sst c = SENTINEL) /\ num_sst (tally t c) = num_sst t) /\
  ((has_nback c <> 0 /\ has_nback c <> SENTINEL) /\
     num_nback (tally t c) = num_nback t + 1 \/
   (has_nback c = 0 \/ has_nback c = SENTINEL) /\
     num_nback (tally t c) = num_nback t) /\
  num_sub_visits (tally t c) = num_sub_visits t.
Proof.
  unfold tally, SENTINEL. simpl.
  repeat split;
    repeat match goal with
           | |- context [(?x =? ?y)%Z] => destruct (Z.eqb_spec x y)
           end; simpl; try (left; split; [lia | reflexivity]);
      try (right; split; [lia | reflexivity]).
Qed.

Lemma visit_then_tally_counts0 (t : totals) :
  tally (mk_totals (num_sub_visits t + 1) (num_t1 t) (num_rsfmri t) (num_sst t)
                   (num_mid t) (num_nback t) (num_t2 t) (num_dti t)) counts0 =
  mk_totals (num_sub_visits t + 1) (num_t1 t) (num_rsfmri t) (num_sst t)
            (num_mid t) (num_nback t) (num_t2 t) (num_dti t).
Proof. reflexivity. Qed.

Lemma select_session_nothing (modalities : list string) (sub_ses_df : DataFrame) :
  (forall r, In r sub_ses_df -> ne_zero (usable r) = true ->
             ~ In (SeriesType r)
                  ["ABCD-T1-NORM"; "ABCD-T1"; "ABCD-T2-NORM"; "ABCD-T2"; "ABCD-rsfMRI";
                   "ABCD-MID-fMRI"; "ABCD-SST-fMRI"; "ABCD-nBack-fMRI"; "ABCD-DTI"]) ->
  select_session modalities sub_ses_df = Some ([], counts0).
Proof.
  intros H. unfold select_session. cbv zeta.
  set (passed := filter (fun r => ne_zero (usable r)) sub_ses_df).
  assert (Hno : forall ty,
             In ty ["ABCD-T1-NORM"; "ABCD-T1"; "ABCD-T2-NORM"; "ABCD-T2"; "ABCD-rsfMRI";
                    "ABCD-MID-fMRI"; "ABCD-SST-fMRI"; "ABCD-nBack-fMRI"; "ABCD-DTI"] ->
             by_type ty passed = []).
  { intros ty Hty. apply by_type_nil. intros r Hin E. subst ty.
    apply filter_In in Hin. destruct Hin as [Hin Hu]. exact (H r Hin Hu Hty). }
  assert (Hany : existsb (isin ["ABCD-rsfMRI"; "ABCD-MID-fMRI"; "ABCD-nBack-fMRI";
                                "ABCD-SST-fMRI"]) passed = false).
  { destruct (existsb _ passed) eqn:E; [| reflexivity].
    apply any_isin in E. destruct E as [r [Hin Hty]].
    apply filter_In in Hin. destruct Hin as [Hin Hu].
    exfalso. apply (H r Hin Hu). simpl in Hty |- *. tauto. }
  assert (Hanat : add_anat_paths passed [] = ([], 0, 0)).
  { rewrite add_anat_paths_eq. cbv zeta.
    rewrite !(Hno "ABCD-T1-NORM"), !(Hno "ABCD-T1"), !(Hno "ABCD-T2-NORM"),
      !(Hno "ABCD-T2") by (simpl; tauto).
    reflexivity. }
  assert (Hfunc : add_func_paths sub_ses_df passed [] = Some ([], 0, 0, 0, 0, 0)).
  { now rewrite add_func_paths_eq, Hany. }
  assert (Hdwi : add_dwi_paths sub_ses_df passed [] = Some ([], 0)).
  { rewrite add_dwi_paths_eq. cbv zeta.
    rewrite !(Hno "ABCD-DTI") by (simpl; tauto). reflexivity. }
  rewrite Hanat.
  destruct (existsb (String.eqb "anat") modalities); cbv beta iota;
    rewrite Hfunc;
    destruct (existsb (String.eqb "func") modalities); cbv beta iota delta [bind];
    rewrite Hdwi;
    destruct (existsb (String.eqb "dwi") modalities); reflexivity.
Qed.

(** C8. A session whose QC-passing rows include no anatomical, functional
    or diffusion series still gets its manifest row, with all eight counts 0;
    no path is selected; nothing is appended to the missing-files log (it is
    only created, with its header, when absent); and no total but the visit
    total moves. *)
Theorem session_without_series
    (s3_bucket : string) (s3_ls : string -> bool)
    (s3_get : string -> string -> string -> bool)
    (modalities : list string) (subject_df : DataFrame)
    (bids_id bids_year : string) (st : run_state) :
  let year := ("ses-" ++ bids_year)%string in
  let sub_ses_df := filter (fun r => EventName r =? year) subject_df in
  (forall r, In r sub_ses_df -> ne_zero (usable r) = true ->
             ~ In (SeriesType r)
                  ["ABCD-T1-NORM"; "ABCD-T1"; "ABCD-T2-NORM"; "ABCD-T2"; "ABCD-rsfMRI";
                   "ABCD-MID-fMRI"; "ABCD-SST-fMRI"; "ABCD-nBack-fMRI"; "ABCD-DTI"]) ->
  select_session modalities sub_ses_df = Some ([], counts0) /\
  exists st',
    session_step s3_bucket s3_ls s3_get modalities subject_df bids_id bids_year st
      = Some st' /\
    manifest st' = manifest st ++ [(bids_id, year, counts0)] /\
    missing_files_log st' = Some (ensure_log (missing_files_log st)) /\
    num_sub_visits (stats st') = num_sub_visits (stats st) + 1 /\
    num_t1 (stats st') = num_t1 (stats st) /\
    num_t2 (stats st') = num_t2 (stats st) /\
    num_rsfmri (stats st') = num_rsfmri (stats st) /\
    num_mid (stats st') = num_mid (stats st) /\
    num_sst (stats st') = num_sst (stats st) /\
    num_nback (stats st') = num_nback (stats st) /\
    num_dti (stats st') = num_dti (stats st).
Proof.
  intros year sub_ses_df H.
  pose proof (select_session_nothing modalities sub_ses_df H) as Hsel.
  split; [exact Hsel |].
  unfold session_step. fold year. fold sub_ses_df. rewrite Hsel.
  cbv beta iota delta [bind]. rewrite visit_then_tally_counts0.
  eexists. split; [reflexivity |]. simpl.
  rewrite app_nil_r. repeat split.
Qed.

Lemma session_without_series_witness :
  exists st',
    session_step "s3://bucket" (fun _ => false) (fun _ _ _ => false)
      ["anat"; "func"; "dwi"] [ap_bad; t1_row] "sub-ABC123" "02A"
      (mk_state [] totals0 None) = Some st' /\
    manifest st' = [("sub-ABC123", "ses-02A", counts0)] /\
    missing_files_log st' = Some [("Missing files log:" ++ nl)%string].
Proof.
  destruct (session_without_series "s3://bucket" (fun _ => false) (fun _ _ _ => false)
              ["anat"; "func"; "dwi"] [ap_bad; t1_row] "sub-ABC123" "02A"
              (mk_state [] totals0 None))
    as [_ [st' [E [Hm [Hlog _]]]]].
  - simpl. intros r [].
  - exists st'. repeat split; assumption.
Defined.

(** *** Counts are row counts *)

Lemma shape0_by_type_passed (ty : string) (f : series_row -> bool) (df : DataFrame) :
  0 <= shape0 (by_type ty (filter f df)) <= shape0 df.
Proof.
  unfold shape0. pose proof (by_type_length ty (filter f df)).
  pose proof (filter_length_le f df). lia.
Qed.

Lemma usable_pairs_bound (all_group : DataFrame) :
  0 <= 2 * Z.of_nat (List.length (usable_pairs (by_type "ABCD-fMRI-FM-AP" all_group)
                                               (by_type "ABCD-fMRI-FM-PA" all_group)))
    <= shape0 all_group.
Proof.
  unfold shape0, usable_pairs.
  pose proof (filter_length_le both_usable
                (combine (by_type "ABCD-fMRI-FM-AP" all_group)
                         (by_type "ABCD-fMRI-FM-PA" all_group))) as Hf.
  rewrite length_combine in Hf.
  assert (Hne : "ABCD-fMRI-FM-AP" <> "ABCD-fMRI-FM-PA") by discriminate.
  pose proof (by_type_two_length _ _ all_group Hne). lia.
Qed.

Lemma anat_counts (passed_QC_group : DataFrame) (file_paths file_paths' : list string)
    (t1 t2 : Z) :
  add_anat_paths passed_QC_group file_paths = (file_paths', t1, t2) ->
  (t1 = shape0 (by_type "ABCD-T1-NORM" passed_QC_group) \/
   t1 = shape0 (by_type "ABCD-T1" passed_QC_group)) /\
  (t2 = shape0 (by_type "ABCD-T2-NORM" passed_QC_group) \/
   t2 = shape0 (by_type "ABCD-T2" passed_QC_group)).
Proof.
  rewrite add_anat_paths_eq. cbv zeta. intros E. inversion E; subst. clear E.
  destruct (empty (by_type "ABCD-T1-NORM" passed_QC_group));
    destruct (empty (by_type "ABCD-T2-NORM" passed_QC_group)); tauto.
Qed.

Lemma func_sefm_count (all_group passed_QC_group : DataFrame)
    (file_paths file_paths' : list string) (sefm rs mid sst nback : Z) :
  add_func_paths all_group passed_QC_group file_paths =
    Some (file_paths', sefm, rs, mid, sst, nback) ->
  sefm = 0 \/
  sefm = shape0 (by_type "ABCD-fMRI-FM" passed_QC_group) \/
  sefm = 2 * Z.of_nat (List.length (usable_pairs (by_type "ABCD-fMRI-FM-AP" all_group)
                                                 (by_type "ABCD-fMRI-FM-PA" all_group))).
Proof.
  rewrite add_func_paths_eq. cbv zeta. intros E.
  destruct (existsb _ passed_QC_group); [| inversion E; tauto].
  destruct (empty (sefm_rows all_group passed_QC_group)); [inversion E; tauto |].
  inversion E; subst. clear E. unfold sefm_rows.
  destruct (empty (by_type "ABCD-fMRI-FM" passed_QC_group)); [| tauto].
  right. right. unfold shape0. rewrite pair_rows_length. lia.
Qed.

Lemma dwi_count (all_group passed_QC_group : DataFrame)
    (file_paths file_paths' : list string) (dti : Z) :
  add_dwi_paths all_group passed_QC_group file_paths = Some (file_paths', dti) ->
  dti = 0 \/ dti = shape0 (by_type "ABCD-DTI" passed_QC_group).
Proof.
  rewrite add_dwi_paths_eq. cbv zeta. intros E.
  repeat match type of E with
         | context [if ?b then _ else _] => destruct b
         end; inversion E; tauto.
Qed.

(** C10, as stated, fails: a session with ten thousand usable T2 series
    gets T2 count 10000, the value of the sentinel. *)
Lemma t2_count_can_be_10000 :
  option_map (fun sel => has_t2 (snd sel))
             (select_session ["anat"; "func"; "dwi"] many_t2) = Some SENTINEL.
Proof. vm_compute. reflexivity. Qed.

(** C10, amended.  The selectors always return.  The T1 and T2 counts are
    0 or the number of passing NORM or plain rows, the SEFM count is 0, the
    number of passing combined field maps or twice the number of usable
    pairs, and the DTI count is 0 or the number of passing DTI rows; each
    lies between 0 and the number of rows of the session.  For a session with
    fewer than 10000 rows none of the four equals 10000, so the T1, T2 and
    DTI totals are incremented only for counts strictly between 0 and
    10000. *)
Theorem non_functional_counts_are_row_counts
    (modalities : list string) (sub_ses_df : DataFrame) :
  let passed := filter (fun r => ne_zero (usable r)) sub_ses_df in
  exists file_paths c,
    select_session modalities sub_ses_df = Some (file_paths, c) /\
    (has_t1 c = 0 \/ has_t1 c = shape0 (by_type "ABCD-T1-NORM" passed) \/
     has_t1 c = shape0 (by_type "ABCD-T1" passed)) /\
    (has_t2 c = 0 \/ has_t2 c = shape0 (by_type "ABCD-T2-NORM" passed) \/
     has_t2 c = shape0 (by_type "ABCD-T2" passed)) /\
    (has_sefm c = 0 \/ has_sefm c = shape0 (by_type "ABCD-fMRI-FM" passed) \/
     has_sefm c =
       2 * Z.of_nat (List.length (usable_pairs (by_type "ABCD-fMRI-FM-AP" sub_ses_df)
                                               (by_type "ABCD-fMRI-FM-PA" sub_ses_df)))) /\
    (has_dti c = 0 \/ has_dti c = shape0 (by_type "ABCD-DTI" passed)) /\
    0 <= has_t1 c <= shape0 sub_ses_df /\
    0 <= has_t2 c <= shape0 sub_ses_df /\
    0 <= has_sefm c <= shape0 sub_ses_df /\
    0 <= has_dti c <= shape0 sub_ses_df /\
    (shape0 sub_ses_df < SENTINEL ->
     has_t1 c <> SENTINEL /\ has_t2 c <> SENTINEL /\
     has_sefm c <> SENTINEL /\ has_dti c <> SENTINEL /\
     forall t,
       (num_t1 (tally t c) = num_t1 t + 1 -> 0 < has_t1 c < SENTINEL) /\
       (num_t2 (tally t c) = num_t2 t + 1 -> 0 < has_t2 c < SENTINEL) /\
       (num_dti (tally t c) = num_dti t + 1 -> 0 < has_dti c < SENTINEL)).
Proof.
  intros passed. unfold select_session. cbv zeta. fold passed.
  assert (Hanat : exists t1 t2 fp1,
             (if existsb (String.eqb "anat") modalities
              then add_anat_paths passed [] else ([], 0, 0)) = (fp1, t1, t2) /\
             (t1 = 0 \/ t1 = shape0 (by_type "ABCD-T1-NORM" passed) \/
              t1 = shape0 (by_type "ABCD-T1" passed)) /\
             (t2 = 0 \/ t2 = shape0 (by_type "ABCD-T2-NORM" passed) \/
              t2 = shape0 (by_type "ABCD-T2" passed))).
  { destruct (existsb (String.eqb "anat") modalities).
    - destruct (add_anat_paths passed []) as [[fp1 t1] t2] eqn:E.
      apply anat_counts in E. exists t1, t2, fp1. tauto.
    - exists 0, 0, []. tauto. }
  destruct Hanat as [t1 [t2 [fp1 [Ea [Ht1 Ht2]]]]]. rewrite Ea. cbv beta iota.
  assert (Hfunc : exists sefm rs mid sst nback fp2,
             (if existsb (String.eqb "func") modalities
              then add_func_paths sub_ses_df passed fp1
              else Some (fp1, 0, 0, 0, 0, 0)) = Some (fp2, sefm, rs, mid, sst, nback) /\
             (sefm = 0 \/ sefm = shape0 (by_type "ABCD-fMRI-FM" passed) \/
              sefm = 2 * Z.of_nat
                       (List.length (usable_pairs (by_type "ABCD-fMRI-FM-AP" sub_ses_df)
                                                  (by_type "ABCD-fMRI-FM-PA" sub_ses_df))))).
  { destruct (existsb (String.eqb "func") modalities).
    - destruct (add_func_paths sub_ses_df passed fp1)
        as [[[[[[fp2 sefm] rs] mid] sst] nback] |] eqn:E.
      + apply func_sefm_count in E. exists sefm, rs, mid, sst, nback, fp2. tauto.
      + rewrite add_func_paths_eq in E. discriminate.
    - exists 0, 0, 0, 0, 0, fp1. tauto. }
  destruct Hfunc as [sefm [rs [mid [sst [nback [fp2 [Ef Hsefm]]]]]]].
  rewrite Ef. cbv beta iota delta [bind].
  assert (Hdwi : exists dti fp3,
             (if existsb (String.eqb "dwi") modalities
              then add_dwi_paths sub_ses_df passed fp2
              else Some (fp2, 0)) = Some (fp3, dti) /\
             (dti = 0 \/ dti = shape0 (by_type "ABCD-DTI" passed))).
  { destruct (existsb (String.eqb "dwi") modalities).
    - destruct (add_dwi_paths sub_ses_df passed fp2) as [[fp3 dti] |] eqn:E.
      + apply dwi_count in E. exists dti, fp3. tauto.
      + rewrite add_dwi_paths_eq in E. discriminate.
    - exists 0, fp2. tauto. }
  destruct Hdwi as [dti [fp3 [Ed Hdti]]]. rewrite Ed. cbv beta iota.
  eexists _, _. split; [reflexivity |]. simpl.
  assert (0 <= shape0 (by_type "ABCD-T1-NORM" passed) <= shape0 sub_ses_df)
    by apply shape0_by_type_passed.
  assert (0 <= shape0 (by_type "ABCD-T1" passed) <= shape0 sub_ses_df)
    by apply shape0_by_type_passed.
  assert (0 <= shape0 (by_type "ABCD-T2-NORM" passed) <= shape0 sub_ses_df)
    by apply shape0_by_type_passed.
  assert (0 <= shape0 (by_type "ABCD-T2" passed) <= shape0 sub_ses_df)
    by apply shape0_by_type_passed.
  assert (0 <= shape0 (by_type "ABCD-fMRI-FM" passed) <= shape0 sub_ses_df)
    by apply shape0_by_type_passed.
  assert (0 <= shape0 (by_type "ABCD-DTI" passed) <= shape0 sub_ses_df)
    by apply shape0_by_type_passed.
  pose proof (usable_pairs_bound sub_ses_df).
  assert (B1 : 0 <= t1 <= shape0 sub_ses_df) by (destruct Ht1 as [-> | [-> | ->]]; lia).
  assert (B2 : 0 <= t2 <= shape0 sub_ses_df) by (destruct Ht2 as [-> | [-> | ->]]; lia).
  assert (B3 : 0 <= sefm <= shape0 sub_ses_df) by (destruct Hsefm as [-> | [-> | ->]]; lia).
  assert (B4 : 0 <= dti <= shape0 sub_ses_df) by (destruct Hdti as [-> | ->]; lia).
  repeat (split; [assumption |]).
  clear Ht1 Ht2 Hsefm Hdti.
  intros Hsmall. unfold SENTINEL in *.
  repeat (split; [lia |]).
  intros t. unfold tally. simpl.
  destruct (Z.eqb_spec t1 0); destruct (Z.eqb_spec t2 0); destruct (Z.eqb_spec dti 0);
    simpl; repeat split; lia.
Qed.

End SelectorFacts.

(** * Properties of the spreadsheet normaliser *)

Module NormalizerFacts.
Import Normalizer QcSamples.

(** *** Strings *)

Lemma length_append (s1 s2 : string) :
  String.length (s1 ++ s2)%string = (String.length s1 + String.length s2)%nat.
Proof. induction s1 as [| c s1 IH]; simpl; [reflexivity | now rewrite IH]. Qed.

Lemma all_digits_append (s1 s2 : string) :
  all_digits (s1 ++ s2)%string = all_digits s1 && all_digits s2.
Proof.
  unfold all_digits. induction s1 as [| c s1 IH]; simpl; [reflexivity |].
  now rewrite IH, andb_assoc.
Qed.

Lemma has_char_append (c : ascii) (s1 s2 : string) :
  has_char c (s1 ++ s2)%string = has_char c s1 || has_char c s2.
Proof.
  unfold has_char. induction s1 as [| x s1 IH]; simpl; [reflexivity |].
  now rewrite IH, orb_assoc.
Qed.

Lemma all_digits_no_dot (s : string) : all_digits s = true -> has_char "." s = false.
Proof.
  unfold all_digits, has_char.
  induction s as [| c s IH]; cbn [list_ascii_of_string forallb existsb]; [reflexivity |].
  rewrite andb_true_iff. intros [Hc Hs]. rewrite (IH Hs), orb_false_r.
  destruct (Ascii.eqb "."%char c) eqn:E; [| reflexivity].
  apply Ascii.eqb_eq in E. subst c. discriminate.
Qed.

Lemma decimal_value_append (s1 s2 : string) (acc : Z) :
  decimal_value (s1 ++ s2)%string acc = decimal_value s2 (decimal_value s1 acc).
Proof.
  revert acc. induction s1 as [| c s1 IH]; intros acc; simpl; [reflexivity | apply IH].
Qed.

Lemma zeros_length (n : nat) : String.length (zeros n) = n.
Proof. induction n; simpl; congruence. Qed.

Lemma zeros_all_digits (n : nat) : all_digits (zeros n) = true.
Proof. induction n; [reflexivity | exact IHn]. Qed.

Lemma zeros_value (n : nat) (acc : Z) : (acc = 0)%Z -> decimal_value (zeros n) acc = 0%Z.
Proof.
  intros ->. induction n; simpl; [reflexivity |].
  unfold digit_value. simpl. exact IHn.
Qed.

(** Splitting at a character the string does not contain gives it back. *)
Lemma split_absent (sep : ascii) (s : string) :
  has_char sep s = false -> split sep s = [s].
Proof.
  unfold has_char.
  induction s as [| c s IH]; cbn [list_ascii_of_string existsb split]; [reflexivity |].
  rewrite orb_false_iff. intros [Hc Hs].
  rewrite Ascii.eqb_sym in Hc. rewrite Hc, (IH Hs). reflexivity.
Qed.

(** *** Rendering integers *)

Lemma digit_cases (d : Z) :
  (0 <= d < 10)%Z ->
  (d = 0 \/ d = 1 \/ d = 2 \/ d = 3 \/ d = 4 \/ d = 5 \/ d = 6 \/ d = 7 \/ d = 8 \/ d = 9)%Z.
Proof. lia. Qed.

Lemma digit_char_is_digit (d : Z) : (0 <= d < 10)%Z -> is_digit (digit_char d) = true.
Proof.
  intros H. apply digit_cases in H.
  repeat destruct H as [-> | H]; try subst d; reflexivity.
Qed.

Lemma digit_char_value (d : Z) : (0 <= d < 10)%Z -> digit_value (digit_char d) = d.
Proof.
  intros H. apply digit_cases in H.
  repeat destruct H as [-> | H]; try subst d; reflexivity.
Qed.

Lemma str_digits_all_digits (fuel : nat) :
  forall z, (0 <= z)%Z -> all_digits (str_digits fuel z) = true.
Proof.
  induction fuel as [| fuel IH]; intros z Hz; cbn [str_digits]; [reflexivity |].
  destruct (Z.ltb_spec z 10).
  - unfold all_digits. cbn [list_ascii_of_string forallb].
    rewrite (digit_char_is_digit z) by lia. reflexivity.
  - rewrite all_digits_append, IH by (apply Z.div_pos; lia).
    unfold all_digits. cbn [list_ascii_of_string forallb].
    rewrite (digit_char_is_digit (z mod 10)); [reflexivity |].
    apply Z.mod_pos_bound. lia.
Qed.

(** With enough fuel the digits of [z] come out: at most [k] of them when
    [z < 10^k], and they denote [z]. *)
Lemma str_digits_spec (fuel : nat) :
  forall (z : Z) (k : nat),
    (0 <= z < 2 ^ Z.of_nat fuel)%Z -> (1 <= fuel)%nat ->
    (z < 10 ^ Z.of_nat k)%Z -> (1 <= k)%nat ->
    (1 <= String.length (str_digits fuel z) <= k)%nat /\
    decimal_value (str_digits fuel z) 0 = z.
Proof.
  induction fuel as [| fuel IH]; intros z k Hz Hf Hk Hk1; [lia |].
  cbn [str_digits]. destruct (Z.ltb_spec z 10) as [Hlt | Hge].
  - cbn [String.length decimal_value]. split; [lia |].
    rewrite (digit_char_value z) by lia. lia.
  - assert (Hdiv : (0 <= z / 10)%Z) by (apply Z.div_pos; lia).
    assert (Hdiv1 : (1 <= z / 10)%Z) by (apply Z.div_le_lower_bound; lia).
    assert (Hpow : (2 ^ Z.of_nat (S fuel) = 2 * 2 ^ Z.of_nat fuel)%Z).
    { rewrite Nat2Z.inj_succ, Z.pow_succ_r by lia. reflexivity. }
    assert (Hfuel : (z / 10 < 2 ^ Z.of_nat fuel)%Z).
    { apply Z.div_lt_upper_bound; lia. }
    assert (Hf' : (1 <= fuel)%nat).
    { destruct fuel; [change (2 ^ Z.of_nat 0)%Z with 1%Z in Hfuel; lia | lia]. }
    destruct k as [| [| k]]; [lia | change (10 ^ Z.of_nat 1)%Z with 10%Z in Hk; lia |].
    assert (Hk' : (z / 10 < 10 ^ Z.of_nat (S k))%Z).
    { apply Z.div_lt_upper_bound; [lia |].
      replace (Z.of_nat (S (S k))) with (Z.succ (Z.of_nat (S k))) in Hk by lia.
      rewrite Z.pow_succ_r in Hk by lia. lia. }
    destruct (IH (z / 10)%Z (S k)) as [Hlen Hval]; try lia.
    rewrite length_append, decimal_value_append, Hval.
    cbn [String.length decimal_value].
    split; [lia |].
    rewrite (digit_char_value (z mod 10)) by (apply Z.mod_pos_bound; lia).
    pose proof (Z.div_mod z 10). lia.
Qed.

Lemma str_int_in_range (z : Z) (k : nat) :
  (0 <= z < 10 ^ Z.of_nat k)%Z -> (1 <= k)%nat ->
  (1 <= String.length (str_int z) <= k)%nat /\
  all_digits (str_int z) = true /\
  decimal_value (str_int z) 0 = z.
Proof.
  intros Hz Hk. unfold str_int.
  destruct (Z.ltb_spec z 0) as [Hneg | _]; [lia |].
  assert (Hfuel : (0 <= z < 2 ^ Z.of_nat (S (Z.to_nat (Z.log2 z))))%Z).
  { pose proof (Z.log2_nonneg z).
    rewrite Nat2Z.inj_succ, Z2Nat.id by assumption.
    destruct (Z.eq_dec z 0) as [-> | Hnz]; [split; [lia | reflexivity] |].
    pose proof (Z.log2_spec z). lia. }
  destruct (str_digits_spec (S (Z.to_nat (Z.log2 z))) z k) as [Hlen Hval]; try lia.
  repeat split; try lia; try assumption.
  apply str_digits_all_digits. lia.
Qed.

Lemma str_int_no_dot (z : Z) : has_char "." (str_int z) = false.
Proof.
  unfold str_int. destruct (Z.ltb_spec z 0).
  - unfold has_char. cbn [list_ascii_of_string existsb].
    change (Ascii.eqb "." "-") with false. cbn [orb].
    apply all_digits_no_dot, str_digits_all_digits. lia.
  - apply all_digits_no_dot, str_digits_all_digits. lia.
Qed.

(** *** zfill *)

Lemma zfill_length (width : nat) (s : string) :
  (width <= String.length (zfill width s))%nat.
Proof.
  unfold zfill. destruct (Nat.leb_spec width (String.length s)) as [H | H]; [exact H |].
  destruct s as [| c r].
  - rewrite zeros_length. simpl. lia.
  - destruct ((c =? "+")%char || (c =? "-")%char).
    + cbn [String.length] in *. rewrite length_append, zeros_length. lia.
    + rewrite length_append, zeros_length. lia.
Qed.

Lemma zfill_no_dot (width : nat) (s : string) :
  has_char "." s = false -> has_char "." (zfill width s) = false.
Proof.
  intros Hs. unfold zfill. destruct (width <=? String.length s)%nat; [exact Hs |].
  assert (Hz : forall n, has_char "." (zeros n) = false).
  { intros n. apply all_digits_no_dot, zeros_all_digits. }
  destruct s as [| c r]; [apply Hz |].
  destruct ((c =? "+")%char || (c =? "-")%char).
  - unfold has_char in *. cbn [list_ascii_of_string existsb] in *.
    apply orb_false_iff in Hs. destruct Hs as [Hc Hr]. rewrite Hc. cbn [orb].
    fold (has_char "." (zeros (width - String.length (String c r)) ++ r)%string).
    rewrite has_char_append. fold (has_char "." r) in Hr. rewrite Hr, orb_false_r. apply Hz.
  - rewrite has_char_append, Hz, Hs. reflexivity.
Qed.

(** On a string of digits [zfill] only puts zeros in front. *)
Lemma zfill_digits (width : nat) (s : string) :
  all_digits s = true -> (String.length s <= width)%nat ->
  String.length (zfill width s) = width /\
  all_digits (zfill width s) = true /\
  decimal_value (zfill width s) 0 = decimal_value s 0.
Proof.
  intros Hd Hlen. unfold zfill.
  destruct (Nat.leb_spec width (String.length s)) as [H | H].
  - repeat split; [lia | assumption].
  - assert (Hpad : (zeros (width - String.length s) ++ s)%string =
                   match s with
                   | EmptyString => zeros (width - String.length s)
                   | String c r =>
                       if ((c =? "+")%char || (c =? "-")%char)
                       then String c (zeros (width - String.length s) ++ r)
                       else (zeros (width - String.length s) ++ s)%string
                   end).
    { destruct s as [| c r].
      - generalize (width - String.length EmptyString)%nat. intros n.
        induction n; simpl; congruence.
      - unfold all_digits in Hd. cbn [list_ascii_of_string forallb] in Hd.
        apply andb_true_iff in Hd. destruct Hd as [Hc _].
        destruct (Ascii.eqb_spec c "+") as [-> |]; [discriminate |].
        destruct (Ascii.eqb_spec c "-") as [-> |]; [discriminate |].
        reflexivity. }
    rewrite <- Hpad. rewrite length_append, zeros_length, all_digits_append,
      zeros_all_digits, Hd, decimal_value_append, zeros_value by reflexivity.
    repeat split. lia.
Qed.

(** *** The padded series time *)

Lemma pad_SeriesTime_cases (x : cell) :
  (notna x = false /\ pad_SeriesTime x = Some "000000") \/
  (notna x = true /\ py_int x = None /\ pad_SeriesTime x = None) \/
  (exists z, notna x = true /\ py_int x = Some z /\
             pad_SeriesTime x = Some (zfill 6 (str_int z))).
Proof.
  unfold pad_SeriesTime. destruct (notna x); [| tauto].
  destruct (py_int x) as [z |]; cbn [bind]; [| tauto].
  right. right. exists z. tauto.
Qed.

Lemma apply_rows_sources (rows : list qc_row) (out : list reformatted_row) :
  apply_rows rows = Some out -> map source out = rows.
Proof.
  revert out. induction rows as [| r rows IH]; intros out; cbn [apply_rows].
  - intros E. inversion E. reflexivity.
  - unfold reformat_row.
    destruct (pad_SeriesTime (SeriesTime r)) as [t |]; cbn [bind]; [| discriminate].
    destruct (apply_rows rows) as [rest |]; cbn [bind]; [| discriminate].
    intros E. inversion E. cbn [map source]. now rewrite (IH rest).
Qed.

Lemma apply_rows_In (rows : list qc_row) (out : list reformatted_row)
    (r' : reformatted_row) :
  apply_rows rows = Some out -> In r' out ->
  In (source r') rows /\ reformat_row (source r') = Some r'.
Proof.
  revert out. induction rows as [| r rows IH]; intros out; cbn [apply_rows].
  - intros E. inversion E. intros [].
  - destruct (reformat_row r) as [x |] eqn:Er; cbn [bind]; [| discriminate].
    destruct (apply_rows rows) as [rest |]; cbn [bind]; [| discriminate].
    intros E. inversion E. subst out. intros [<- | Hin].
    + assert (Hs : source x = r).
      { unfold reformat_row in Er.
        destruct (pad_SeriesTime (SeriesTime r)); cbn [bind] in Er; [| discriminate].
        inversion Er. reflexivity. }
      rewrite Hs. split; [now left | exact Er].
    + destruct (IH rest eq_refl Hin) as [H1 H2]. split; [now right | exact H2].
Qed.

Lemma apply_rows_None (rows : list qc_row) :
  apply_rows rows = None <->
  exists r, In r rows /\ notna (SeriesTime r) = true /\ py_int (SeriesTime r) = None.
Proof.
  induction rows as [| r rows IH]; cbn [apply_rows].
  - split; [discriminate | intros [r [[] _]]].
  - unfold reformat_row.
    destruct (pad_SeriesTime_cases (SeriesTime r)) as [[Hna E] | [[Hna [Hi E]] | [z [Hna [Hi E]]]]];
      rewrite E; cbn [bind].
    + destruct (apply_rows rows) as [rest |]; cbn [bind].
      * split; [discriminate |]. intros [r0 [[<- | Hin] [H1 H2]]]; [congruence |].
        assert (X : Some rest = None) by (apply IH; eauto). discriminate.
      * split; [| reflexivity]. intros _.
        destruct (proj1 IH eq_refl) as [r0 [Hin H]]. exists r0. split; [now right | exact H].
    + split; [| reflexivity]. intros _. exists r. split; [now left | tauto].
    + destruct (apply_rows rows) as [rest |]; cbn [bind].
      * split; [discriminate |]. intros [r0 [[<- | Hin] [H1 H2]]]; [congruence |].
        assert (X : Some rest = None) by (apply IH; eauto). discriminate.
      * split; [| reflexivity]. intros _.
        destruct (proj1 IH eq_refl) as [r0 [Hin H]]. exists r0. split; [now right | exact H].
Qed.

(** *** Claims about the normaliser *)

(** C5, as stated, fails: one kept row whose series time cannot be
    coerced makes the whole reformatting raise, and the rows around it are
    lost with it.  The same row is harmless only when the completeness filter
    has already removed it. *)
Lemma uncoercible_time_is_fatal :
  reformat_fastqc_spreadsheet [good_row; bad_time_row; good_row] = None /\
  option_map (map dicom_filename_ends_with)
             (reformat_fastqc_spreadsheet [good_row; incomplete_bad_time_row; good_row]) =
    Some ["20180101093015"; "20180101093015"].
Proof. split; reflexivity. Qed.

(** C5, amended.  The reformatting raises, as a whole, exactly when some
    row kept by the completeness and compliance filter has a series time
    that is present and cannot be coerced to an integer.  When it does not
    raise, every kept row is in the output, in order: no row is ever dropped
    for its date or time, and a missing series time is not an error. *)
Theorem uncoercible_time_aborts_run (all_qc_data : list qc_row) :
  (reformat_fastqc_spreadsheet all_qc_data = None <->
   exists r, In r all_qc_data /\ keep r = true /\
             notna (SeriesTime r) = true /\ py_int (SeriesTime r) = None) /\
  (forall out, reformat_fastqc_spreadsheet all_qc_data = Some out ->
               map source out = filter keep all_qc_data).
Proof.
  unfold reformat_fastqc_spreadsheet. split.
  - rewrite apply_rows_None. split.
    + intros [r [Hin H]]. apply filter_In in Hin. exists r. tauto.
    + intros [r [Hin [Hk H]]]. exists r. split; [| exact H].
      apply filter_In. tauto.
  - intros out. apply apply_rows_sources.
Qed.

(** C6, as stated, fails.  A study date held as a float prints with a
    decimal point, and cutting the suffix at the first point removes the
    whole time; a time of seven digits is kept at seven digits; a time that
    cannot be parsed raises instead of giving the fallback. *)
Lemma suffix_without_six_time_digits :
  option_map (map dicom_filename_ends_with)
             (reformat_fastqc_spreadsheet [float_date_row]) = Some ["20180101"] /\
  option_map (map dicom_filename_ends_with)
             (reformat_fastqc_spreadsheet [long_time_row]) = Some ["201801011234567"] /\
  reformat_fastqc_spreadsheet [bad_time_row] = None.
Proof. repeat split; reflexivity. Qed.

(** C6, amended.  For every row of the output: the padded series time has
    at least 6 characters; it is "000000" when the series time is missing;
    it is exactly 6 digits denoting the time when the time coerces to an
    integer from 0 to 999999; and when the text of the study date has no
    decimal point the suffix is that text followed by the padded time. *)
Theorem suffix_is_date_then_padded_time
    (all_qc_data : list qc_row) (out : list reformatted_row) (r' : reformatted_row) :
  reformat_fastqc_spreadsheet all_qc_data = Some out ->
  In r' out ->
  (6 <= String.length (SeriesTime_str r'))%nat /\
  (notna (SeriesTime (source r')) = false -> SeriesTime_str r' = "000000") /\
  (forall z, notna (SeriesTime (source r')) = true ->
             py_int (SeriesTime (source r')) = Some z ->
             (0 <= z < 1000000)%Z ->
             String.length (SeriesTime_str r') = 6%nat /\
             all_digits (SeriesTime_str r') = true /\
             decimal_value (SeriesTime_str r') 0 = z) /\
  (has_char "." (astype_str (StudyDate (source r'))) = false ->
   dicom_filename_ends_with r' =
   (astype_str (StudyDate (source r')) ++ SeriesTime_str r')%string).
Proof.
  unfold reformat_fastqc_spreadsheet. intros Hout Hin.
  destruct (apply_rows_In _ _ _ Hout Hin) as [_ Hrow].
  unfold reformat_row in Hrow.
  set (r := source r') in *.
  assert (Hnodot : forall t, pad_SeriesTime (SeriesTime r) = Some t ->
                             has_char "." t = false).
  { intros t Ht.
    destruct (pad_SeriesTime_cases (SeriesTime r))
      as [[_ E] | [[_ [_ E]] | [z [_ [_ E]]]]]; rewrite E in Ht; inversion Ht.
    - reflexivity.
    - apply zfill_no_dot, str_int_no_dot. }
  destruct (pad_SeriesTime_cases (SeriesTime r))
    as [[Hna E] | [[Hna [Hi E]] | [z [Hna [Hi E]]]]];
    rewrite E in Hrow; cbn [bind] in Hrow; inversion Hrow as [Hr']; clear Hrow;
    cbn [SeriesTime_str dicom_filename_ends_with].
  - split; [cbn; lia |].
    split; [reflexivity |].
    split; [intros z' Hna'; congruence |].
    intros Hdate. unfold filename_suffix.
    rewrite split_absent; [reflexivity |].
    rewrite has_char_append, Hdate. reflexivity.
  - split; [apply zfill_length |].
    split; [intros Hna'; congruence |].
    split.
    + intros z' _ Hz' Hrange. rewrite Hi in Hz'. inversion Hz'. subst z'.
      destruct (str_int_in_range z 6) as [Hlen [Hd Hv]]; [lia | lia |].
      destruct (zfill_digits 6 (str_int z) Hd) as [L [D V]]; [lia |].
      rewrite V. tauto.
    + intros Hdate. unfold filename_suffix.
      rewrite split_absent; [reflexivity |].
      rewrite has_char_append, Hdate. apply (Hnodot _ E).
Qed.

Lemma suffix_is_date_then_padded_time_witness :
  option_map (map dicom_filename_ends_with)
             (reformat_fastqc_spreadsheet [good_row; nan_time_row]) =
    Some ["20180101093015"; "20180101000000"] /\
  forall r', In r' [mk_reformatted good_row "093015" "20180101093015";
                    mk_reformatted nan_time_row "000000" "20180101000000"] ->
             (6 <= String.length (SeriesTime_str r'))%nat /\
             dicom_filename_ends_with r' =
             (astype_str (StudyDate (source r')) ++ SeriesTime_str r')%string.
Proof.
  split; [reflexivity |].
  intros r' Hin.
  destruct (suffix_is_date_then_padded_time [good_row; nan_time_row]
              [mk_reformatted good_row "093015" "20180101093015";
               mk_reformatted nan_time_row "000000" "20180101000000"] r')
    as [Hlen [_ [_ Hsuffix]]].
  - reflexivity.
  - exact Hin.
  - split; [exact Hlen |]. apply Hsuffix.
    destruct Hin as [<- | [<- | []]]; reflexivity.
Defined.

End NormalizerFacts.

(** * Properties of a whole run of the downloader *)

Module RunFacts.
Import Downloader Run Samples.
Import SelectorFacts.

Lemma select_session_some (modalities : list string) (sub_ses_df : DataFrame) :
  exists file_paths c, select_session modalities sub_ses_df = Some (file_paths, c).
Proof.
  unfold select_session. cbv zeta.
  set (passed := filter (fun r => ne_zero (usable r)) sub_ses_df).
  destruct (if existsb (String.eqb "anat") modalities
            then add_anat_paths passed [] else ([], 0, 0)) as [[fp1 t1] t2].
  assert (Hf : exists x, (if existsb (String.eqb "func") modalities
                          then add_func_paths sub_ses_df passed fp1
                          else Some (fp1, 0, 0, 0, 0, 0)) = Some x).
  { destruct (existsb (String.eqb "func") modalities); [| eauto].
    rewrite add_func_paths_eq. eauto. }
  destruct Hf as [[[[[[fp2 sefm] rs] mid] sst] nback] Ef]. rewrite Ef.
  cbv beta iota delta [bind].
  assert (Hd : exists x, (if existsb (String.eqb "dwi") modalities
                          then add_dwi_paths sub_ses_df passed fp2
                          else Some (fp2, 0)) = Some x).
  { destruct (existsb (String.eqb "dwi") modalities); [| eauto].
    rewrite add_dwi_paths_eq. eauto. }
  destruct Hd as [[fp3 dti] Ed]. rewrite Ed. cbv beta iota. eauto.
Qed.

Section Storage.

Variable s3_bucket : string.
Variable s3_ls : string -> bool.
Variable s3_get : string -> string -> string -> bool.
Variable modalities : list string.
Variable series_df : DataFrame.

(** One pass of the inner loop of [main], in closed form. *)
Lemma session_step_eq (sub bids_year : string) (st : run_state) :
  session_step s3_bucket s3_ls s3_get modalities
    (filter (fun r => pGUID r =? ("sub-" ++ sub)%string) series_df)
    ("sub-" ++ sub)%string bids_year st =
  Some (mk_state
          (manifest st ++ [(("sub-" ++ sub)%string, ("ses-" ++ bids_year)%string,
                            session_counts modalities series_df sub bids_year)])
          (tally (mk_totals (num_sub_visits (stats st) + 1) (num_t1 (stats st))
                            (num_rsfmri (stats st)) (num_sst (stats st))
                            (num_mid (stats st)) (num_nback (stats st))
                            (num_t2 (stats st)) (num_dti (stats st)))
                 (session_counts modalities series_df sub bids_year))
          (Some (ensure_log (missing_files_log st)
                   ++ download s3_bucket s3_ls s3_get ("sub-" ++ sub)%string bids_year
                        (session_paths modalities series_df sub bids_year)))).
Proof.
  unfold session_step, session_counts, session_paths, session_slice. cbv zeta.
  destruct (select_session_some modalities
              (filter (fun r => EventName r =? ("ses-" ++ bids_year)%string)
                      (filter (fun r => pGUID r =? ("sub-" ++ sub)%string) series_df)))
    as [fp [c E]].
  rewrite E. reflexivity.
Qed.

Lemma rows_with_snoc (test : counts -> bool) (rows : list (string * string * counts))
    (row : string * string * counts) :
  rows_with test (rows ++ [row]) = rows_with test rows + (if test (snd row) then 1 else 0).
Proof.
  unfold rows_with. rewrite filter_app, length_app. simpl.
  destruct (test (snd row)); simpl; lia.
Qed.

Lemma rows_with_bounds (test : counts -> bool) (rows : list (string * string * counts)) :
  0 <= rows_with test rows <= Z.of_nat (List.length rows).
Proof.
  unfold rows_with.
  pose proof (filter_length_le (fun row => test (snd row)) rows). lia.
Qed.

(** Counting a visit and tallying its counts keeps totals and manifest in
    step. *)
Lemma stats_agree_step (t : totals) (rows : list (string * string * counts))
    (bids_id year : string) (c : counts) :
  stats_agree t rows ->
  stats_agree
    (tally (mk_totals (num_sub_visits t + 1) (num_t1 t) (num_rsfmri t) (num_sst t)
                      (num_mid t) (num_nback t) (num_t2 t) (num_dti t)) c)
    (rows ++ [(bids_id, year, c)]).
Proof.
  unfold stats_agree.
  intros [Hv [H1 [H2 [Hd [Hr [Hm [Hs Hn]]]]]]].
  rewrite !rows_with_snoc, length_app, Nat2Z.inj_add.
  unfold tally, counted, counted_func in *. cbn [snd num_sub_visits num_t1 num_t2 num_dti
    num_rsfmri num_mid num_sst num_nback List.length].
  repeat split; try lia;
    repeat match goal with
           | |- context [(?x =? ?y)%Z] => destruct (x =? y)%Z
           end; cbn [negb andb]; lia.
Qed.

Lemma years_loop_eq (sub : string) (year_list : list string) :
  forall st : run_state,
  exists st',
    years_loop s3_bucket s3_ls s3_get modalities
      (filter (fun r => pGUID r =? ("sub-" ++ sub)%string) series_df)
      ("sub-" ++ sub)%string year_list st = Some st' /\
    manifest st' =
      manifest st ++ map (fun bids_year =>
                            (("sub-" ++ sub)%string, ("ses-" ++ bids_year)%string,
                             session_counts modalities series_df sub bids_year))
                         year_list /\
    (stats_agree (stats st) (manifest st) -> stats_agree (stats st') (manifest st')) /\
    missing_files_log st' =
      match year_list with
      | [] => missing_files_log st
      | _ :: _ =>
          Some (ensure_log (missing_files_log st)
                  ++ flat_map (fun bids_year =>
                                 download s3_bucket s3_ls s3_get ("sub-" ++ sub)%string
                                   bids_year
                                   (session_paths modalities series_df sub bids_year))
                              year_list)
      end.
Proof.
  induction year_list as [| y rest IH]; intros st; cbn [years_loop].
  - exists st. cbn [map flat_map]. rewrite app_nil_r. tauto.
  - rewrite session_step_eq. cbv beta iota delta [bind].
    match goal with
    | |- context [years_loop _ _ _ _ _ _ rest ?s] => destruct (IH s) as [st' [E [Hm [Hs Hl]]]]
    end.
    exists st'. split; [exact E |].
    cbn [manifest stats missing_files_log] in Hm, Hs, Hl.
    split; [| split].
    + rewrite Hm. cbn [map]. rewrite <- app_assoc. reflexivity.
    + intros Hagree. apply Hs. now apply stats_agree_step.
    + rewrite Hl. destruct rest as [| y' rest']; cbn [flat_map ensure_log].
      * now rewrite app_nil_r.
      * rewrite <- !app_assoc. reflexivity.
Qed.

Lemma subjects_loop_eq (year_list : list string) (subject_list : list string) :
  forall st : run_state,
  exists st',
    subjects_loop s3_bucket s3_ls s3_get modalities series_df subject_list year_list st
      = Some st' /\
    manifest st' =
      manifest st ++ rows_of_run modalities series_df subject_list year_list /\
    (stats_agree (stats st) (manifest st) -> stats_agree (stats st') (manifest st')) /\
    ((subject_list = [] \/ year_list = []) -> missing_files_log st' = missing_files_log st) /\
    (subject_list <> [] -> year_list <> [] ->
     missing_files_log st' =
       Some (ensure_log (missing_files_log st)
               ++ missing_lines s3_bucket s3_ls s3_get modalities series_df
                    subject_list year_list)).
Proof.
  induction subject_list as [| sub rest IH]; intros st; cbn [subjects_loop].
  - exists st. unfold rows_of_run. cbn [flat_map]. rewrite app_nil_r.
    split; [reflexivity |]. split; [reflexivity |]. split; [tauto |].
    split; [reflexivity |]. intros Hne. now contradiction Hne.
  - destruct (years_loop_eq sub year_list st) as [st1 [E1 [Hm1 [Hs1 Hl1]]]].
    rewrite E1. cbv beta iota delta [bind].
    destruct (IH st1) as [st' [E [Hm [Hs [Hl0 Hl]]]]].
    exists st'. split; [exact E |].
    split; [| split; [| split]].
    + rewrite Hm, Hm1. unfold rows_of_run. cbn [flat_map]. now rewrite app_assoc.
    + intros Hagree. apply Hs, Hs1, Hagree.
    + intros [Hnil | Hnil]; [discriminate |]. subst year_list.
      rewrite Hl0 by (right; reflexivity). exact Hl1.
    + intros _ Hyears. unfold missing_lines. cbn [flat_map].
      destruct year_list as [| y ys]; [congruence |].
      destruct rest as [| sub' rest'].
      * rewrite Hl0 by (left; reflexivity). rewrite Hl1. cbn [flat_map].
        now rewrite app_nil_r.
      * rewrite Hl by congruence. rewrite Hl1. cbn [ensure_log].
        unfold missing_lines. rewrite <- !app_assoc. reflexivity.
Qed.

End Storage.

Lemma rows_of_run_length (modalities : list string) (series_df : DataFrame)
    (subject_list year_list : list string) :
  Z.of_nat (List.length (rows_of_run modalities series_df subject_list year_list)) =
  Z.of_nat (List.length subject_list) * Z.of_nat (List.length year_list).
Proof.
  unfold rows_of_run. induction subject_list as [| sub rest IH]; cbn [flat_map].
  - reflexivity.
  - rewrite length_app, length_map, Nat2Z.inj_add, IH. cbn [List.length]. lia.
Qed.

Lemma stats_agree_start : stats_agree totals0 [].
Proof. repeat split. Qed.

(** X1. [main] never raises in its selection part, and the manifest it
    writes has exactly one row per listed subject and session, subjects
    outermost and sessions in the order given, each row carrying the counts
    the selectors give for that subject's and session's slice of the table;
    the visit total is the number of subjects times the number of
    sessions. *)
Theorem main_manifest_rows
    (s3_bucket : string) (s3_ls : string -> bool)
    (s3_get : string -> string -> string -> bool)
    (modalities : list string) (series_df : DataFrame)
    (subject_list year_list : list string) (log : option (list string)) :
  exists st,
    main s3_bucket s3_ls s3_get modalities series_df subject_list year_list log = Some st /\
    manifest st = rows_of_run modalities series_df subject_list year_list /\
    num_sub_visits (stats st) =
      Z.of_nat (List.length subject_list) * Z.of_nat (List.length year_list).
Proof.
  unfold main.
  destruct (subjects_loop_eq s3_bucket s3_ls s3_get modalities series_df year_list
              subject_list (mk_state [] totals0 log)) as [st [E [Hm [Hs _]]]].
  exists st. split; [exact E |]. cbn [manifest stats] in Hm, Hs.
  rewrite app_nil_l in Hm. split; [exact Hm |].
  destruct (Hs stats_agree_start) as [Hv _].
  rewrite Hv, Hm. apply rows_of_run_length.
Qed.

(** X2. The end-of-run statistics are counts over the manifest: the T1,
    T2 and DTI totals are the numbers of manifest rows whose count is not 0,
    the rsfMRI, MID, SST and nBack totals the numbers of rows whose count is
    neither 0 nor 10000, and none exceeds the number of visits. *)
Theorem totals_count_manifest_rows
    (s3_bucket : string) (s3_ls : string -> bool)
    (s3_get : string -> string -> string -> bool)
    (modalities : list string) (series_df : DataFrame)
    (subject_list year_list : list string) (log : option (list string)) :
  exists st,
    main s3_bucket s3_ls s3_get modalities series_df subject_list year_list log = Some st /\
    stats_agree (stats st) (manifest st) /\
    0 <= num_t1 (stats st) <= num_sub_visits (stats st) /\
    0 <= num_t2 (stats st) <= num_sub_visits (stats st) /\
    0 <= num_dti (stats st) <= num_sub_visits (stats st) /\
    0 <= num_rsfmri (stats st) <= num_sub_visits (stats st) /\
    0 <= num_mid (stats st) <= num_sub_visits (stats st) /\
    0 <= num_sst (stats st) <= num_sub_visits (stats st) /\
    0 <= num_nback (stats st) <= num_sub_visits (stats st).
Proof.
  unfold main.
  destruct (subjects_loop_eq s3_bucket s3_ls s3_get modalities series_df year_list
              subject_list (mk_state [] totals0 log)) as [st [E [_ [Hs _]]]].
  exists st. split; [exact E |].
  specialize (Hs stats_agree_start). split; [exact Hs |].
  destruct Hs as [Hv [H1 [H2 [Hd [Hr [Hm [Hss Hn]]]]]]].
  rewrite Hv, H1, H2, Hd, Hr, Hm, Hss, Hn.
  repeat split; apply rows_with_bounds.
Qed.

Lemma flat_map_all_nil {A B : Type} (f : A -> list B) (l : list A) :
  (forall x, f x = []) -> flat_map f l = [].
Proof.
  intros H. induction l as [| x l IH]; cbn [flat_map]; [reflexivity |].
  now rewrite H, IH.
Qed.

Lemma download_nothing_missing
    (s3_bucket : string) (s3_ls : string -> bool)
    (s3_get : string -> string -> string -> bool)
    (bids_id bids_year : string) (file_paths : list string) :
  (forall path, s3_ls path = true) ->
  (forall a b path, s3_get a b path = true) ->
  download s3_bucket s3_ls s3_get bids_id bids_year file_paths = [].
Proof.
  intros Hls Hget. unfold download.
  apply flat_map_all_nil. intros fp. unfold download_one.
  apply flat_map_all_nil. intros x. now rewrite Hls, Hget.
Qed.

(** X3. The missing-files log is only ever appended to.  A run with no
    subject or no session leaves it as it was (it is not even created); any
    other run leaves the old content, or the header line when the file was
    absent, followed by the lines of the run.  When every selected file is
    listed by the storage and every fetch succeeds, the run adds no line. *)
Theorem missing_log_is_append_only
    (s3_bucket : string) (s3_ls : string -> bool)
    (s3_get : string -> string -> string -> bool)
    (modalities : list string) (series_df : DataFrame)
    (subject_list year_list : list string) (log : option (list string)) :
  exists st,
    main s3_bucket s3_ls s3_get modalities series_df subject_list year_list log = Some st /\
    (subject_list = [] \/ year_list = [] -> missing_files_log st = log) /\
    (subject_list <> [] -> year_list <> [] ->
     missing_files_log st =
       Some (ensure_log log
               ++ missing_lines s3_bucket s3_ls s3_get modalities series_df
                    subject_list year_list)) /\
    ((forall path, s3_ls path = true) ->
     (forall a b path, s3_get a b path = true) ->
     missing_lines s3_bucket s3_ls s3_get modalities series_df subject_list year_list = []).
Proof.
  unfold main.
  destruct (subjects_loop_eq s3_bucket s3_ls s3_get modalities series_df year_list
              subject_list (mk_state [] totals0 log)) as [st [E [_ [_ [Hl0 Hl]]]]].
  exists st. split; [exact E |]. cbn [missing_files_log] in Hl0, Hl.
  split; [exact Hl0 |]. split; [exact Hl |].
  intros Hls Hget. unfold missing_lines.
  apply flat_map_all_nil. intros sub.
  apply flat_map_all_nil. intros bids_year.
  now apply download_nothing_missing.
Qed.

Lemma session_step_slice
    (s3_bucket : string) (s3_ls : string -> bool)
    (s3_get : string -> string -> string -> bool)
    (modalities : list string) (df1 df2 : DataFrame) (sub bids_year : string)
    (st : run_state) :
  session_slice df1 sub bids_year = session_slice df2 sub bids_year ->
  session_step s3_bucket s3_ls s3_get modalities
    (filter (fun r => pGUID r =? ("sub-" ++ sub)%string) df1)
    ("sub-" ++ sub)%string bids_year st =
  session_step s3_bucket s3_ls s3_get modalities
    (filter (fun r => pGUID r =? ("sub-" ++ sub)%string) df2)
    ("sub-" ++ sub)%string bids_year st.
Proof.
  intros H. rewrite !session_step_eq. unfold session_counts, session_paths.
  now rewrite H.
Qed.

(** X4. A run reads the table only through the slices of the listed
    subjects and sessions: two tables that agree on every such slice give the
    same manifest, the same totals and the same missing-files log.  Rows of
    other subjects or other sessions never influence a run. *)
Theorem run_depends_only_on_listed_slices
    (s3_bucket : string) (s3_ls : string -> bool)
    (s3_get : string -> string -> string -> bool)
    (modalities : list string) (df1 df2 : DataFrame)
    (subject_list year_list : list string) (log : option (list string)) :
  (forall sub bids_year,
     In sub subject_list -> In bids_year year_list ->
     session_slice df1 sub bids_year = session_slice df2 sub bids_year) ->
  main s3_bucket s3_ls s3_get modalities df1 subject_list year_list log =
  main s3_bucket s3_ls s3_get modalities df2 subject_list year_list log.
Proof.
  unfold main. generalize (mk_state [] totals0 log).
  induction subject_list as [| sub rest IH]; intros st H; cbn [subjects_loop];
    [reflexivity |].
  assert (Hy : forall st0,
             years_loop s3_bucket s3_ls s3_get modalities
               (filter (fun r => pGUID r =? ("sub-" ++ sub)%string) df1)
               ("sub-" ++ sub)%string year_list st0 =
             years_loop s3_bucket s3_ls s3_get modalities
               (filter (fun r => pGUID r =? ("sub-" ++ sub)%string) df2)
               ("sub-" ++ sub)%string year_list st0).
  { assert (Hsub : forall y, In y year_list ->
                     session_slice df1 sub y = session_slice df2 sub y).
    { intros y Hin. apply H; [now left | exact Hin]. }
    clear - Hsub. induction year_list as [| y ys IHy]; intros st0; cbn [years_loop];
      [reflexivity |].
    rewrite (session_step_slice _ _ _ _ df1 df2) by (apply Hsub; now left).
    destruct (session_step _ _ _ _ _ _ _ st0) as [st1 |]; cbn [bind]; [| reflexivity].
    apply IHy. intros y' Hin. apply Hsub. now right. }
  rewrite Hy.
  destruct (years_loop _ _ _ _ _ _ year_list st) as [st1 |]; cbn [bind]; [| reflexivity].
  apply IH. intros sub' y Hs Hin. apply H; [now right | exact Hin].
Qed.

Lemma run_depends_only_on_listed_slices_witness :
  main "s3://bucket" (fun _ => true) (fun _ _ _ => true) ["anat"; "func"; "dwi"]
       [t1n_row; mk_row "sub-XYZ789" "ses-00A" "ABCD-T1" (CInt 1) "other"; rs_row]
       ["ABC123"] ["00A"; "02A"] None =
  main "s3://bucket" (fun _ => true) (fun _ _ _ => true) ["anat"; "func"; "dwi"]
       [t1n_row; rs_row; mk_row "sub-ABC123" "ses-04A" "ABCD-T2" (CInt 1) "later"]
       ["ABC123"] ["00A"; "02A"] None.
Proof.
  apply run_depends_only_on_listed_slices.
  intros sub y [<- | []] [<- | [<- | []]]; reflexivity.
Defined.

End RunFacts.

(** * Further properties of the selectors *)

Module SelectionFacts.
Import Downloader Run Samples.
Import SelectorFacts.

Lemma passed_rows (ty : string) (df : DataFrame) (r : series_row) :
  In r (by_type ty (filter (fun r => ne_zero (usable r)) df)) ->
  In r df /\ ne_zero (usable r) = true.
Proof.
  intros H. apply by_type_In in H. destruct H as [H _].
  now apply filter_In in H.
Qed.

Lemma pair_rows_In (AP_df PA_df : DataFrame) (r : series_row) :
  In r (pair_rows (usable_pairs AP_df PA_df)) ->
  (In r AP_df \/ In r PA_df) /\ ne_zero (usable r) = true.
Proof.
  unfold pair_rows, usable_pairs. rewrite in_flat_map.
  intros [[a p] [Hin Hr]]. apply filter_In in Hin. destruct Hin as [Hin Hu].
  unfold both_usable in Hu. cbn [fst snd] in Hu, Hr.
  apply andb_true_iff in Hu. destruct Hu as [Ua Up].
  destruct Hr as [<- | [<- | []]].
  - split; [left; eapply in_combine_l; eassumption | exact Ua].
  - split; [right; eapply in_combine_r; eassumption | exact Up].
Qed.

Lemma names_from_usable (df rows : DataFrame) :
  (forall r, In r rows -> In r df /\ ne_zero (usable r) = true) ->
  Forall (from_usable_row df) (map filename rows).
Proof.
  intros H. apply Forall_forall. intros path Hin.
  apply in_map_iff in Hin. destruct Hin as [r [E Hr]].
  exists r. destruct (H r Hr). tauto.
Qed.

Lemma passed_names_from_usable (ty : string) (df : DataFrame) :
  Forall (from_usable_row df)
         (map filename (by_type ty (filter (fun r => ne_zero (usable r)) df))).
Proof. apply names_from_usable. intros r. apply passed_rows. Qed.

Lemma pair_names_from_usable (ty1 ty2 : string) (df : DataFrame) :
  Forall (from_usable_row df)
         (map filename (pair_rows (usable_pairs (by_type ty1 df) (by_type ty2 df)))).
Proof.
  apply names_from_usable. intros r Hin. apply pair_rows_In in Hin.
  destruct Hin as [[Hin | Hin] Hu]; apply by_type_In in Hin; tauto.
Qed.

(** X5. The selectors never select an unusable series: every path chosen
    for a session is the file name of a row of that session whose usable flag
    is not 0.  This holds for the field maps too, although their candidates
    are looked up in the unfiltered slice. *)
Theorem selected_paths_are_usable_rows (modalities : list string) (sub_ses_df : DataFrame) :
  exists file_paths c,
    select_session modalities sub_ses_df = Some (file_paths, c) /\
    Forall (from_usable_row sub_ses_df) file_paths.
Proof.
  unfold select_session. cbv zeta.
  set (passed := filter (fun r => ne_zero (usable r)) sub_ses_df).
  assert (Ha : exists fp1 t1 t2,
             (if existsb (String.eqb "anat") modalities
              then add_anat_paths passed [] else ([], 0, 0)) = (fp1, t1, t2) /\
             Forall (from_usable_row sub_ses_df) fp1).
  { destruct (existsb (String.eqb "anat") modalities).
    - rewrite add_anat_paths_eq. cbv zeta. eexists _, _, _. split; [reflexivity |].
      rewrite app_nil_l. apply Forall_app. split.
      + destruct (empty (by_type "ABCD-T1-NORM" passed)); apply passed_names_from_usable.
      + destruct (empty (by_type "ABCD-T2-NORM" passed)); apply passed_names_from_usable.
    - eexists _, _, _. split; [reflexivity | constructor]. }
  destruct Ha as [fp1 [t1 [t2 [Ea F1]]]]. rewrite Ea. cbv beta iota.
  assert (Hf : exists fp2 sefm rs mid sst nback,
             (if existsb (String.eqb "func") modalities
              then add_func_paths sub_ses_df passed fp1
              else Some (fp1, 0, 0, 0, 0, 0)) = Some (fp2, sefm, rs, mid, sst, nback) /\
             Forall (from_usable_row sub_ses_df) fp2).
  { destruct (existsb (String.eqb "func") modalities).
    - rewrite add_func_paths_eq. cbv zeta.
      destruct (existsb _ passed).
      + destruct (empty (sefm_rows sub_ses_df passed)).
        * eexists _, _, _, _, _, _. split; [reflexivity | exact F1].
        * eexists _, _, _, _, _, _. split; [reflexivity |].
          repeat (apply Forall_app; split); try apply passed_names_from_usable;
            try exact F1.
          unfold sefm_rows. destruct (empty (by_type "ABCD-fMRI-FM" passed)).
          -- apply pair_names_from_usable.
          -- apply passed_names_from_usable.
      + eexists _, _, _, _, _, _. split; [reflexivity | exact F1].
    - eexists _, _, _, _, _, _. split; [reflexivity | exact F1]. }
  destruct Hf as [fp2 [sefm [rs [mid [sst [nback [Ef F2]]]]]]]. rewrite Ef.
  cbv beta iota delta [bind].
  assert (Hd : exists fp3 dti,
             (if existsb (String.eqb "dwi") modalities
              then add_dwi_paths sub_ses_df passed fp2
              else Some (fp2, 0)) = Some (fp3, dti) /\
             Forall (from_usable_row sub_ses_df) fp3).
  { destruct (existsb (String.eqb "dwi") modalities).
    - rewrite add_dwi_paths_eq. cbv zeta.
      repeat match goal with
             | |- context [if ?b then _ else _] => destruct b
             end;
        eexists _, _; (split; [reflexivity |]); try exact F2;
        repeat (apply Forall_app; split); try apply passed_names_from_usable;
        try exact F2; apply pair_names_from_usable.
    - eexists _, _. split; [reflexivity | exact F2]. }
  destruct Hd as [fp3 [dti [Ed F3]]]. rewrite Ed. cbv beta iota.
  eexists _, _. split; [reflexivity | exact F3].
Qed.

Lemma active_has_a_series (passed_QC_group : DataFrame) :
  existsb (isin ["ABCD-rsfMRI"; "ABCD-MID-fMRI"; "ABCD-nBack-fMRI"; "ABCD-SST-fMRI"])
          passed_QC_group = true ->
  0 < shape0 (by_type "ABCD-rsfMRI" passed_QC_group)
      + shape0 (by_type "ABCD-MID-fMRI" passed_QC_group)
      + shape0 (by_type "ABCD-SST-fMRI" passed_QC_group)
      + shape0 (by_type "ABCD-nBack-fMRI" passed_QC_group).
Proof.
  intros H. apply any_isin in H. destruct H as [r [Hin Hty]].
  assert (Hpos : forall ty, SeriesType r = ty -> 0 < shape0 (by_type ty passed_QC_group)).
  { intros ty E.
    assert (Hr : In r (by_type ty passed_QC_group)) by (apply by_type_In; tauto).
    unfold shape0. destruct (by_type ty passed_QC_group); [destruct Hr | cbn [List.length]; lia]. }
  pose proof (shape0_nonneg (by_type "ABCD-rsfMRI" passed_QC_group)).
  pose proof (shape0_nonneg (by_type "ABCD-MID-fMRI" passed_QC_group)).
  pose proof (shape0_nonneg (by_type "ABCD-SST-fMRI" passed_QC_group)).
  pose proof (shape0_nonneg (by_type "ABCD-nBack-fMRI" passed_QC_group)).
  cbn [In] in Hty.
  destruct Hty as [E | [E | [E | [E | []]]]]; symmetry in E; apply Hpos in E; lia.
Qed.

(** X6. The functional selector is all or nothing.  Either it reports
    SEFM count 0 and adds no path at all, the four series counts then being
    all 0 or all 10000; or it reports a positive SEFM count, adds the field
    maps first and then the rsfMRI, MID, SST and nBack series in that order,
    reports for each of the four the number of its passing rows, and at
    least one of those numbers is positive.  So no functional series is
    selected without a field map and no field map without a functional
    series. *)
Theorem func_selection_is_all_or_nothing
    (all_group passed_QC_group : DataFrame) (file_paths : list string) :
  exists file_paths' sefm rs mid sst nback,
    add_func_paths all_group passed_QC_group file_paths =
      Some (file_paths', sefm, rs, mid, sst, nback) /\
    ((sefm = 0 /\ file_paths' = file_paths /\
      ((rs = 0 /\ mid = 0 /\ sst = 0 /\ nback = 0) \/
       (rs = 10000 /\ mid = 10000 /\ sst = 10000 /\ nback = 10000))) \/
     (0 < sefm /\
      sefm = shape0 (sefm_rows all_group passed_QC_group) /\
      rs = shape0 (by_type "ABCD-rsfMRI" passed_QC_group) /\
      mid = shape0 (by_type "ABCD-MID-fMRI" passed_QC_group) /\
      sst = shape0 (by_type "ABCD-SST-fMRI" passed_QC_group) /\
      nback = shape0 (by_type "ABCD-nBack-fMRI" passed_QC_group) /\
      0 < rs + mid + sst + nback /\
      file_paths' =
        file_paths ++ map filename (sefm_rows all_group passed_QC_group)
          ++ map filename (by_type "ABCD-rsfMRI" passed_QC_group)
          ++ map filename (by_type "ABCD-MID-fMRI" passed_QC_group)
          ++ map filename (by_type "ABCD-SST-fMRI" passed_QC_group)
          ++ map filename (by_type "ABCD-nBack-fMRI" passed_QC_group))).
Proof.
  rewrite add_func_paths_eq. cbv zeta.
  destruct (existsb _ passed_QC_group) eqn:Hany.
  - destruct (sefm_rows all_group passed_QC_group) as [| f FM] eqn:EF; cbn [empty].
    + eexists _, _, _, _, _, _. split; [reflexivity |]. left. tauto.
    + eexists _, _, _, _, _, _. split; [reflexivity |]. right.
      pose proof (active_has_a_series passed_QC_group Hany).
      split; [unfold shape0; cbn [List.length]; lia |].
      repeat (split; [reflexivity |]).
      split; [assumption |].
      rewrite <- !app_assoc. reflexivity.
  - eexists _, _, _, _, _, _. split; [reflexivity |]. left. tauto.
Qed.


(** X8. With a passing DTI row and a diffusion field map, combined or a
    usable pair, the diffusion selector adds all passing DTI files first and
    the field-map files after them, and reports the number of passing DTI
    rows.  Without any passing DTI row it adds nothing and reports 0, also
    when field maps are there. *)
Theorem dwi_selection_with_field_map
    (all_group passed_QC_group : DataFrame) (file_paths : list string) :
  let DTI_df := by_type "ABCD-DTI" passed_QC_group in
  let FM_df := by_type "ABCD-Diffusion-FM" passed_QC_group in
  let pairs := usable_pairs (by_type "ABCD-Diffusion-FM-AP" all_group)
                            (by_type "ABCD-Diffusion-FM-PA" all_group) in
  (DTI_df = [] ->
   add_dwi_paths all_group passed_QC_group file_paths = Some (file_paths, 0)) /\
  (DTI_df <> [] -> FM_df <> [] ->
   add_dwi_paths all_group passed_QC_group file_paths =
   Some (file_paths ++ map filename DTI_df ++ map filename FM_df, shape0 DTI_df)) /\
  (DTI_df <> [] -> FM_df = [] -> pairs <> [] ->
   add_dwi_paths all_group passed_QC_group file_paths =
   Some (file_paths ++ map filename DTI_df ++ map filename (pair_rows pairs),
         shape0 DTI_df)).
Proof.
  intros DTI_df FM_df pairs. rewrite add_dwi_paths_eq. cbv zeta.
  fold DTI_df FM_df pairs.
  assert (Hpos : DTI_df <> [] -> (1 <=? shape0 DTI_df)%Z = true).
  { intros H. apply Z.leb_le. unfold shape0.
    destruct DTI_df; [contradiction | cbn [List.length]; lia]. }
  split; [| split].
  - intros ->. reflexivity.
  - intros Hd Hf. rewrite (Hpos Hd).
    destruct FM_df; [contradiction |]. cbn [empty]. now rewrite <- app_assoc.
  - intros Hd Hf Hp. rewrite (Hpos Hd), Hf. cbn [empty].
    destruct (by_type "ABCD-Diffusion-FM-AP" all_group) as [| a AP] eqn:EA.
    + exfalso. apply Hp. reflexivity.
    + cbn [empty].
      destruct (empty (pair_rows pairs)) eqn:E.
      * apply empty_true, pair_rows_nil_iff in E. contradiction.
      * now rewrite <- app_assoc.
Qed.

Example combined_map_wins_over_usable_pair :
  add_func_paths [rs_row; fm_row; ap_row; pa_row] [rs_row; fm_row; ap_row; pa_row] [] =
  Some ([filename fm_row; filename rs_row], 1, 1, 0, 0, 0).
Proof. reflexivity. Qed.

Example dti_before_its_field_maps :
  add_dwi_paths [dti_row; dap_row; dpa_row] [dti_row; dap_row; dpa_row] [] =
  Some ([filename dti_row; filename dap_row; filename dpa_row], 1) /\
  add_dwi_paths [dti_row; dap_row; dpa_row; dfm_row] [dti_row; dap_row; dpa_row; dfm_row] [] =
  Some ([filename dti_row; filename dfm_row], 1).
Proof. split; reflexivity. Qed.

(** X9. Only membership of the names anat, func and dwi in the modality
    list matters: two lists that agree on these three names give the same
    selection, whatever their order, repetitions or other entries.  The
    selectors always run in the order anat, func, dwi. *)
Theorem modalities_are_a_set (m1 m2 : list string) (sub_ses_df : DataFrame) :
  (forall name, In name ["anat"; "func"; "dwi"] -> (In name m1 <-> In name m2)) ->
  select_session m1 sub_ses_df = select_session m2 sub_ses_df.
Proof.
  intros H.
  assert (E : forall name, In name ["anat"; "func"; "dwi"] ->
                existsb (String.eqb name) m1 = existsb (String.eqb name) m2).
  { intros name Hn.
    assert (Hin : forall m, existsb (String.eqb name) m = true <-> In name m).
    { intros m. rewrite existsb_exists. split.
      - intros [x [Hx Ex]]. apply String.eqb_eq in Ex. now subst.
      - intros Hx. exists name. split; [exact Hx | apply String.eqb_refl]. }
    destruct (existsb (String.eqb name) m1) eqn:E1;
      destruct (existsb (String.eqb name) m2) eqn:E2; try reflexivity.
    - apply Hin, (H name Hn), Hin in E1. congruence.
    - apply Hin, (H name Hn), Hin in E2. congruence. }
  unfold select_session.
  rewrite (E "anat"), (E "func"), (E "dwi") by (cbn [In]; tauto).
  reflexivity.
Qed.

Lemma modalities_are_a_set_witness :
  select_session ["dwi"; "anat"; "anat"; "pet"] [t1_row; rs_row; ap_row; pa_row; dti_row] =
  select_session ["anat"; "dwi"] [t1_row; rs_row; ap_row; pa_row; dti_row].
Proof.
  apply modalities_are_a_set.
  intros name [<- | [<- | [<- | []]]]; cbn [In]; split; intros H;
    repeat destruct H as [H | H]; try discriminate H; tauto.
Defined.

End SelectionFacts.

(** * Properties of the list arguments *)

Module ArgsFacts.
Import Normalizer Args.
Import NormalizerFacts.





End ArgsFacts.

(** * Properties of the path templates *)

Module PathFacts.
Import Normalizer PathTable Args.
Import NormalizerFacts ArgsFacts.

Lemma append_nil_r (s : string) : (s ++ EmptyString)%string = s.
Proof. induction s as [| c s IH]; cbn [append]; congruence. Qed.

Lemma append_assoc (a b c : string) : ((a ++ b) ++ c)%string = (a ++ b ++ c)%string.
Proof. induction a as [| x a IH]; cbn [append]; congruence. Qed.

(** In a string without a dot, followed by [.dicom.tgz], the only occurrence
    of [.dicom.tgz] is the final one. *)
Lemma replace_extension (new head : string) :
  has_char "." head = false ->
  replace ".dicom.tgz" new (head ++ ".dicom.tgz") = (head ++ new)%string.
Proof.
  unfold replace, has_char.
  induction head as [| c head IH]; cbn [list_ascii_of_string existsb append].
  - intros _. cbn. apply append_nil_r.
  - rewrite orb_false_iff. intros [Hc Hh].
    cbn [replace_from prefix].
    destruct (ascii_dec "." c) as [E | _].
    + subst c. discriminate Hc.
    + now rewrite (IH Hh).
Qed.

Lemma replace_stem (new stem suffix : string) :
  has_char "." stem = false -> has_char "." suffix = false ->
  replace ".dicom.tgz" new (stem ++ suffix ++ ".dicom.tgz") =
  (stem ++ suffix ++ new)%string.
Proof.
  intros Hs Hx. rewrite <- !append_assoc. apply replace_extension.
  now rewrite has_char_append, Hs, Hx.
Qed.

(** Every table entry: what the if-chain computes for it, whether it is a
    task, and that its stem is free of dots and semicolons and starts with a
    letter. *)
Lemma template_facts (ty stem : string) (events : bool) (suffix : string) :
  In (ty, stem, events) templates ->
  base_path ty suffix = Some (stem ++ suffix ++ ".dicom.tgz")%string /\
  existsb (String.eqb ty) task_types = events /\
  has_char "." stem = false /\ has_char ";" stem = false /\
  match stem with
  | String c _ => is_space c = false
  | EmptyString => False
  end.
Proof.
  unfold templates. intros H.
  repeat (destruct H as [H | H];
          [inversion H; subst; repeat split; reflexivity |]).
  destruct H.
Qed.

Lemma determine_file_path_of_base (ty stem suffix : string) (events : bool) :
  base_path ty suffix = Some (stem ++ suffix ++ ".dicom.tgz")%string ->
  existsb (String.eqb ty) task_types = events ->
  has_char "." stem = false -> has_char "." suffix = false ->
  determine_file_path (CStr ty) suffix = Some (join ";" (files_of stem suffix events)).
Proof.
  intros Hb He Hs Hx. unfold determine_file_path. cbv zeta.
  rewrite Hb, He. cbn [option_map]. rewrite !replace_stem by assumption.
  destruct events; reflexivity.
Qed.

(** X11. The if-chain of [determine_file_path] implements the template
    table: for each of the fifteen series types of the table and a suffix
    without a dot, the path field is the archive path, the JSON path and,
    for the three task types only, the event-file path, joined by
    semicolons, each being the type's stem, the suffix and the extension. *)
Theorem determine_file_path_follows_table
    (ty stem : string) (events : bool) (suffix : string) :
  In (ty, stem, events) templates ->
  has_char "." suffix = false ->
  determine_file_path (CStr ty) suffix = Some (join ";" (files_of stem suffix events)).
Proof.
  intros Hin Hx.
  destruct (template_facts ty stem events suffix Hin) as [Hb [He [Hs _]]].
  now apply determine_file_path_of_base.
Qed.

Lemma determine_file_path_follows_table_witness :
  determine_file_path (CStr "fMRI_MID_task") "20180101093015" =
  Some ("func/ABCD-MID-fMRI_run-20180101093015.dicom.tgz;"
        ++ "func/ABCD-MID-fMRI_run-20180101093015.json;"
        ++ "func/ABCD-MID-fMRI_run-20180101093015-EventRelatedInformation.txt")%string.
Proof.
  apply (determine_file_path_follows_table "fMRI_MID_task" "func/ABCD-MID-fMRI_run-" true).
  - unfold templates. cbn [In]. tauto.
  - reflexivity.
Defined.

Lemma base_path_known (ty suffix : string) :
  base_path ty suffix <> None <-> In ty (map (fun t => fst (fst t)) templates).
Proof.
  split.
  - unfold base_path, task_types. cbn [existsb map templates fst In].
    repeat match goal with
           | |- context [String.eqb ty ?name] =>
               destruct (String.eqb_spec ty name) as [-> | ?];
               [intros _; auto 20 | cbn [orb]]
           end.
    intros H. now contradiction H.
  - intros H. cbn [map templates fst In] in H.
    repeat (destruct H as [<- | H]; [discriminate |]). destruct H.
Qed.

(** X12. A row gets no path exactly when its series type is not one of
    the fifteen names of the table (or is not text at all), whatever the
    suffix; for every name of the table a path is produced. *)
Theorem unknown_series_type_has_no_path (SeriesType : cell) (suffix : string) :
  determine_file_path SeriesType suffix = None <->
  (forall ty, SeriesType = CStr ty -> ~ In ty (map (fun t => fst (fst t)) templates)).
Proof.
  destruct SeriesType as [z | q r | ty | ]; cbn [determine_file_path];
    try (split; [intros _ ty H; discriminate | reflexivity]).
  cbv zeta. split.
  - intros H ty' E Hin. inversion E. subst ty'.
    apply (base_path_known ty suffix) in Hin.
    destruct (base_path ty suffix) as [b |]; [| now contradiction Hin].
    cbn [option_map] in H.
    destruct (existsb (String.eqb ty) task_types); discriminate.
  - intros H. destruct (base_path ty suffix) as [b |] eqn:E; [| reflexivity].
    exfalso. apply (H ty eq_refl). apply (base_path_known ty suffix). congruence.
Qed.

(** *** From the path field back to the files *)








End PathFacts.

(** * Properties of the cell clean-up *)

Module CleaningFacts.
Import Normalizer PathTable.
Import NormalizerFacts.

Lemma digit_not_space (c : ascii) : is_digit c = true -> is_space c = false.
Proof.
  unfold is_digit, is_space. generalize (nat_of_ascii c). intros n H.
  apply andb_true_iff in H. destruct H as [H1 H2].
  apply Nat.leb_le in H1. apply Nat.leb_le in H2.
  apply orb_false_iff. split; apply andb_false_iff.
  - right. apply Nat.leb_gt. lia.
  - right. apply Nat.leb_gt. lia.
Qed.

Lemma digit_value_range (c : ascii) : is_digit c = true -> (0 <= digit_value c <= 9)%Z.
Proof.
  unfold is_digit, digit_value. generalize (nat_of_ascii c). intros n H.
  apply andb_true_iff in H. destruct H as [H1 H2].
  apply Nat.leb_le in H1. apply Nat.leb_le in H2. lia.
Qed.

Lemma digit_value_inj (c c' : ascii) : digit_value c = digit_value c' -> c = c'.
Proof.
  unfold digit_value. intros H.
  assert (E : nat_of_ascii c = nat_of_ascii c') by lia.
  rewrite <- (ascii_nat_embedding c), <- (ascii_nat_embedding c'). now rewrite E.
Qed.

Lemma all_digits_cons (c : ascii) (s : string) :
  all_digits (String c s) = is_digit c && all_digits s.
Proof. reflexivity. Qed.

Lemma strip_digits (s : string) : all_digits s = true -> strip s = s.
Proof.
  intros H. unfold strip.
  assert (Hl : lstrip s = s).
  { destruct s as [| c s]; [reflexivity |].
    rewrite all_digits_cons in H. apply andb_true_iff in H. destruct H as [Hc _].
    cbn [lstrip]. now rewrite (digit_not_space c Hc). }
  rewrite Hl. induction s as [| c s IH]; [reflexivity |].
  rewrite all_digits_cons in H. apply andb_true_iff in H. destruct H as [Hc Hs].
  cbn [rstrip]. rewrite IH; [| exact Hs |].
  - destruct s; [now rewrite (digit_not_space c Hc) | reflexivity].
  - destruct s as [| d s]; [reflexivity |].
    rewrite all_digits_cons in Hs. apply andb_true_iff in Hs. destruct Hs as [Hd _].
    cbn [lstrip]. now rewrite (digit_not_space d Hd).
Qed.

Lemma parse_all_digits (s : string) :
  forall (acc : Z) (after_digit : bool),
    all_digits s = true -> (s <> EmptyString \/ after_digit = true) ->
    parse_digits s acc after_digit = Some (decimal_value s acc).
Proof.
  induction s as [| c s IH]; intros acc b Hd Hne; cbn [parse_digits decimal_value].
  - destruct Hne as [Hne | ->]; [contradiction | reflexivity].
  - rewrite all_digits_cons in Hd. apply andb_true_iff in Hd. destruct Hd as [Hc Hs].
    rewrite Hc. apply IH; [exact Hs | now right].
Qed.

(** [int] on a non-empty string of digits reads its decimal value. *)
Lemma int_of_digits (s : string) :
  all_digits s = true -> s <> EmptyString ->
  int_of_str s = Some (decimal_value s 0).
Proof.
  intros Hd Hne. unfold int_of_str. rewrite (strip_digits s Hd).
  rewrite <- (parse_all_digits s 0 false Hd (or_introl Hne)).
  destruct s as [| c s]; [contradiction |].
  rewrite all_digits_cons in Hd. apply andb_true_iff in Hd. destruct Hd as [Hc _].
  destruct c as [[|] [|] [|] [|] [|] [|] [|] [|]]; try discriminate Hc; reflexivity.
Qed.

Lemma decimal_value_shift (s : string) :
  forall acc : Z,
    decimal_value s acc = (acc * 10 ^ Z.of_nat (String.length s) + decimal_value s 0)%Z.
Proof.
  induction s as [| c s IH]; intros acc; cbn [decimal_value String.length].
  - change (10 ^ Z.of_nat 0)%Z with 1%Z. lia.
  - rewrite (IH (10 * acc + digit_value c)%Z), (IH (10 * 0 + digit_value c)%Z).
    rewrite Nat2Z.inj_succ, Z.pow_succ_r by lia. ring.
Qed.

Lemma decimal_value_bound (s : string) :
  all_digits s = true ->
  (0 <= decimal_value s 0 < 10 ^ Z.of_nat (String.length s))%Z.
Proof.
  induction s as [| c s IH]; intros Hd; cbn [decimal_value String.length].
  - change (10 ^ Z.of_nat 0)%Z with 1%Z. lia.
  - rewrite all_digits_cons in Hd. apply andb_true_iff in Hd. destruct Hd as [Hc Hs].
    specialize (IH Hs). pose proof (digit_value_range c Hc).
    rewrite decimal_value_shift, Nat2Z.inj_succ, Z.pow_succ_r by lia.
    nia.
Qed.

(** Two digit strings of the same length that denote the same number are the
    same string. *)
Lemma digits_unique (a : string) :
  forall b : string,
    all_digits a = true -> all_digits b = true ->
    String.length a = String.length b ->
    decimal_value a 0 = decimal_value b 0 -> a = b.
Proof.
  induction a as [| c a IH]; intros [| d b] Ha Hb Hlen Hval;
    cbn [String.length] in Hlen; try discriminate; [reflexivity |].
  rewrite all_digits_cons in Ha, Hb.
  apply andb_true_iff in Ha. apply andb_true_iff in Hb.
  destruct Ha as [Hc Ha]. destruct Hb as [Hd Hb].
  cbn [decimal_value] in Hval.
  rewrite (decimal_value_shift a), (decimal_value_shift b) in Hval.
  assert (Hl : String.length a = String.length b) by lia.
  rewrite Hl in Hval.
  pose proof (decimal_value_bound a Ha) as Ba. rewrite Hl in Ba.
  pose proof (decimal_value_bound b Hb) as Bb.
  pose proof (digit_value_range c Hc). pose proof (digit_value_range d Hd).
  assert (Hdig : digit_value c = digit_value d) by nia.
  assert (Hrest : decimal_value a 0 = decimal_value b 0) by nia.
  apply digit_value_inj in Hdig. subst d.
  f_equal. now apply IH.
Qed.

(** X14. A series time written as text of one to six digits, with or
    without quotes around it, keeps its digits through the clean-up and the
    padding: the clean-up turns it into an int, which drops leading zeros,
    and the padding puts zeros in front up to six digits, so a text of
    exactly six digits comes out unchanged. *)
Theorem digit_time_survives_clean_up (t s : string) :
  strip_char quote t = s ->
  all_digits s = true ->
  (1 <= String.length s <= 6)%nat ->
  clean_cell (CStr t) = Some (CInt (decimal_value s 0)) /\
  (c <- clean_cell (CStr t) ;; pad_SeriesTime c) =
    Some (zeros (6 - String.length s) ++ s)%string.
Proof.
  intros Hs Hd Hlen.
  assert (Hne : s <> EmptyString) by (destruct s; [cbn in Hlen; lia | discriminate]).
  assert (Hclean : clean_cell (CStr t) = Some (CInt (decimal_value s 0))).
  { unfold clean_cell. cbv zeta. rewrite Hs. unfold isnumeric. rewrite Hd.
    destruct (String.eqb_spec s EmptyString) as [E | _]; [contradiction |].
    cbn [negb andb]. now rewrite (int_of_digits s Hd Hne). }
  split; [exact Hclean |].
  rewrite Hclean. cbn [bind]. unfold pad_SeriesTime. cbn [notna py_int bind].
  f_equal.
  pose proof (decimal_value_bound s Hd) as Hb.
  assert (Hrange : (0 <= decimal_value s 0 < 10 ^ Z.of_nat 6)%Z).
  { split; [lia |]. eapply Z.lt_le_trans; [apply Hb |].
    apply Z.pow_le_mono_r; lia. }
  destruct (str_int_in_range (decimal_value s 0) 6 Hrange) as [Hl [Ha Hv]]; [lia |].
  destruct (zfill_digits 6 (str_int (decimal_value s 0)) Ha) as [L [D V]]; [lia |].
  apply digits_unique.
  - exact D.
  - now rewrite all_digits_append, zeros_all_digits, Hd.
  - rewrite L, length_append, zeros_length. lia.
  - rewrite V, Hv, decimal_value_append, zeros_value by reflexivity. reflexivity.
Qed.

Lemma digit_time_survives_clean_up_witness :
  (c <- clean_cell (CStr (String quote ("093015" ++ String quote EmptyString))) ;;
   pad_SeriesTime c) = Some "093015".
Proof.
  apply (digit_time_survives_clean_up
           (String quote ("093015" ++ String quote EmptyString)) "093015").
  - reflexivity.
  - reflexivity.
  - cbn. lia.
Defined.

(** *** Stripping quotes *)

Lemma lstrip_char_head (q : ascii) (s : string) :
  match lstrip_char q s with
  | EmptyString => True
  | String c _ => (c =? q)%char = false
  end.
Proof.
  induction s as [| c s IH]; cbn [lstrip_char]; [exact I |].
  destruct (c =? q)%char eqn:E; [exact IH | exact E].
Qed.

Lemma rstrip_char_idem (q : ascii) (s : string) :
  rstrip_char q (rstrip_char q s) = rstrip_char q s.
Proof.
  induction s as [| c s IH]; cbn [rstrip_char]; [reflexivity |].
  destruct (rstrip_char q s) as [| x r] eqn:E.
  - destruct (c =? q)%char eqn:Ec; cbn [rstrip_char]; [reflexivity |].
    now rewrite Ec.
  - cbn [rstrip_char]. cbn [rstrip_char] in IH. rewrite IH. reflexivity.
Qed.

Lemma lstrip_after_rstrip (q : ascii) (s : string) :
  match s with
  | EmptyString => True
  | String c _ => (c =? q)%char = false
  end ->
  lstrip_char q (rstrip_char q s) = rstrip_char q s.
Proof.
  destruct s as [| c s]; [reflexivity |]. intros Hc. cbn [rstrip_char].
  destruct (rstrip_char q s); rewrite ?Hc; cbn [lstrip_char]; now rewrite Hc.
Qed.

Lemma strip_char_idem (q : ascii) (s : string) :
  strip_char q (strip_char q s) = strip_char q s.
Proof.
  unfold strip_char.
  rewrite (lstrip_after_rstrip q (lstrip_char q s) (lstrip_char_head q s)).
  apply rstrip_char_idem.
Qed.

(** X15. Cleaning a cell a second time changes nothing: what the clean-up
    returns is a fixed point of it.  A string it returns has no quote left at
    either end and is not numeric, so every numeric text has become an int. *)
Theorem clean_cell_is_idempotent (x y : cell) :
  clean_cell x = Some y ->
  clean_cell y = Some y /\
  (forall s, y = CStr s -> strip_char quote s = s /\ isnumeric s = false).
Proof.
  destruct x as [z | q r | t |]; cbn [clean_cell];
    try (intros E; inversion E; subst; split; [reflexivity | discriminate]).
  cbv zeta. destruct (isnumeric (strip_char quote t)) eqn:En.
  - destruct (int_of_str (strip_char quote t)) as [z |]; cbn [bind]; [| discriminate].
    intros E. inversion E. subst. split; [reflexivity | discriminate].
  - intros E. inversion E. subst. split.
    + cbn [clean_cell]. cbv zeta. now rewrite strip_char_idem, En.
    + intros s Hs. inversion Hs. subst. split; [apply strip_char_idem | exact En].
Qed.

Lemma clean_cell_is_idempotent_witness :
  clean_cell (CStr (String quote ("fMRI_MID_task" ++ String quote EmptyString))) =
    Some (CStr "fMRI_MID_task") /\
  clean_cell (CStr "fMRI_MID_task") = Some (CStr "fMRI_MID_task").
Proof.
  split; [reflexivity |].
  apply (clean_cell_is_idempotent
           (CStr (String quote ("fMRI_MID_task" ++ String quote EmptyString)))).
  reflexivity.
Defined.

End CleaningFacts.

(** * Properties of the wrapper *)

Module WrapperFacts.
Import Wrapper.

Lemma run_steps_started (step_ok : string -> bool) (start_at : string)
    (steps : list string) :
  snd (run_steps step_ok start_at steps true) = forallb step_ok steps /\
  (forallb step_ok steps = true ->
   fst (run_steps step_ok start_at steps true) = steps) /\
  (forallb step_ok steps = false ->
   exists done failed rest,
     steps = done ++ failed :: rest /\
     fst (run_steps step_ok start_at steps true) = done ++ [failed] /\
     forallb step_ok done = true /\ step_ok failed = false).
Proof.
  induction steps as [| step rest IH]; cbn [run_steps forallb].
  - repeat split; [discriminate].
  - assert (Hs : (if step =? start_at then true else true) = true)
      by (destruct (step =? start_at); reflexivity).
    rewrite Hs. destruct (step_ok step) eqn:Hok; cbn [andb].
    + destruct (run_steps step_ok start_at rest true) as [called finished].
      cbn [fst snd] in *. destruct IH as [IH1 [IH2 IH3]].
      split; [exact IH1 |]. split.
      * intros H. now rewrite (IH2 H).
      * intros H. destruct (IH3 H) as [done [failed [rest' [E1 [E2 [E3 E4]]]]]].
        exists (step :: done), failed, rest'. cbn [app forallb].
        rewrite E1, E2, Hok, E3. tauto.
    + cbn [fst snd]. split; [reflexivity |]. split; [discriminate |].
      intros _. exists [], step, rest. tauto.
Qed.

Lemma run_steps_before_start (step_ok : string -> bool) (start_at : string)
    (pre steps : list string) :
  ~ In start_at pre ->
  run_steps step_ok start_at (pre ++ steps) false =
  run_steps step_ok start_at steps false.
Proof.
  induction pre as [| p pre IH]; intros Hnot; cbn [app run_steps]; [reflexivity |].
  destruct (String.eqb_spec p start_at) as [E | _].
  - exfalso. apply Hnot. left. exact E.
  - apply IH. intros H. apply Hnot. now right.
Qed.

(** X16. The wrapper runs the step named by [--start_at] and every later
    step, in order, and nothing before it.  It reaches the final clean-up
    exactly when every one of them returns; otherwise it stops at the first
    step that raises, having run the steps before it.  A start name that is
    not a step makes it run nothing and still reach the clean-up. *)
Theorem wrapper_runs_from_start_step (step_ok : string -> bool) (start_at : string) :
  (~ In start_at STEP_NAMES -> main step_ok start_at = ([], true)) /\
  (forall pre post,
     STEP_NAMES = pre ++ start_at :: post -> ~ In start_at pre ->
     snd (main step_ok start_at) = forallb step_ok (start_at :: post) /\
     (forallb step_ok (start_at :: post) = true ->
      fst (main step_ok start_at) = start_at :: post) /\
     (forallb step_ok (start_at :: post) = false ->
      exists done failed rest,
        start_at :: post = done ++ failed :: rest /\
        fst (main step_ok start_at) = done ++ [failed] /\
        forallb step_ok done = true /\ step_ok failed = false)).
Proof.
  unfold main. split.
  - intros Hnot. rewrite <- (app_nil_r STEP_NAMES).
    now rewrite run_steps_before_start.
  - intros pre post E Hnot. rewrite E, run_steps_before_start by exact Hnot.
    assert (Hgo : run_steps step_ok start_at (start_at :: post) false =
                  run_steps step_ok start_at (start_at :: post) true).
    { cbn [run_steps]. now rewrite String.eqb_refl. }
    rewrite Hgo. apply run_steps_started.
Qed.

Lemma wrapper_runs_from_start_step_witness :
  fst (main (fun step => negb (step =? "correct_jsons")) "download_s3_data") =
    ["download_s3_data"; "unpack_and_setup"; "correct_jsons"] /\
  snd (main (fun step => negb (step =? "correct_jsons")) "download_s3_data") = false.
Proof.
  destruct (wrapper_runs_from_start_step
              (fun step => negb (step =? "correct_jsons")) "download_s3_data")
    as [_ H].
  destruct (H ["reformat_fastqc_spreadsheet"]
              ["unpack_and_setup"; "correct_jsons"; "validate_bids"])
    as [Hfin _].
  - reflexivity.
  - intros [E | []]. discriminate E.
  - split; [reflexivity | exact Hfin].
Defined.



End WrapperFacts.

(** * Properties of the download loop *)

Module DownloadFacts.
Import Downloader Samples.

(** X18. The missing-files log only ever names files that were selected:
    a line is written exactly for a semicolon-separated part of a selected
    path that the storage does not list, or lists but fails to deliver.  The
    line gives subject, session and the part's bucket path, and ends with an
    extra semicolon in the first case only, so the two failures can be told
    apart. *)
Theorem missing_lines_name_selected_files
    (s3_bucket : string) (s3_ls : string -> bool)
    (s3_get : string -> string -> string -> bool)
    (bids_id bids_year : string) (file_paths : list string) (line : string) :
  In line (download s3_bucket s3_ls s3_get bids_id bids_year file_paths) <->
  exists file_path part,
    In file_path file_paths /\ In part (split ";" file_path) /\
    let full_file_path := (s3_bucket ++ "/" ++ strip part)%string in
    (s3_ls full_file_path = false /\
     line = (bids_id ++ "; " ++ bids_year ++ "; " ++ full_file_path ++ "; " ++ nl)%string) \/
    (s3_ls full_file_path = true /\ s3_get bids_id bids_year full_file_path = false /\
     line = (bids_id ++ "; " ++ bids_year ++ "; " ++ full_file_path ++ nl)%string).
Proof.
  unfold download, download_one. rewrite in_flat_map. split.
  - intros [fp [Hfp Hline]]. apply in_flat_map in Hline.
    destruct Hline as [part [Hpart Hin]]. exists fp, part.
    split; [exact Hfp |]. split; [exact Hpart |]. cbv zeta.
    destruct (s3_ls (s3_bucket ++ "/" ++ strip part)%string).
    + destruct (s3_get bids_id bids_year (s3_bucket ++ "/" ++ strip part)%string).
      * destruct Hin.
      * destruct Hin as [<- | []]. right. tauto.
    + destruct Hin as [<- | []]. left. tauto.
  - intros [fp [part [Hfp [Hpart H]]]]. exists fp. split; [exact Hfp |].
    apply in_flat_map. exists part. split; [exact Hpart |]. cbv zeta in H.
    destruct H as [[Hls ->] | [Hls [Hget ->]]]; rewrite Hls; [| rewrite Hget]; now left.
Qed.

End DownloadFacts.
